(** * Attendance synchronisation service

    A shallow embedding of the three service classes of the repository
    ([AttendanceService], [GoogleSheetsService], [SyncService]) and the
    properties of the synchronisation orchestrator checked against them.

    JavaScript objects are records, [undefined]/[null] is [None], dates are
    milliseconds since the epoch in [Z].  An [async] method is a term of the
    free monad [Async]: the nodes [AxiosGet], [ValuesGet] and [ValuesAppend]
    are the three places where the source awaits the network; everything
    between two such nodes runs without interruption, as on the JavaScript
    event loop. *)

From Stdlib Require Import String Ascii List ZArith Lia Bool DecimalString.
Import ListNotations.
Local Open Scope string_scope.

(** ** JavaScript values used by the services *)

(** Truthiness of a value that is a string, [undefined] or [null]. *)
Definition truthy (v : option string) : bool :=
  match v with
  | Some s => negb (s =? "")
  | None => false
  end.

(** [v || d] for such a value and a string default. *)
Definition or_else (v : option string) (d : string) : string :=
  if truthy v then match v with Some s => s | None => d end else d.

(** [`${n}`] for an integer. *)
Definition string_of_Z (z : Z) : string := NilZero.string_of_int (Z.to_int z).

(** Strict equality of two such values. *)
Definition strict_eq (a b : option string) : bool :=
  match a, b with
  | Some s, Some t => s =? t
  | None, None => true
  | _, _ => false
  end.

(** [xs.includes(v)] *)
Definition includes (xs : list (option string)) (v : option string) : bool :=
  existsb (strict_eq v) xs.

(** Opaque JSON payloads ([meta], [links]) are kept as text. *)
Definition Json := string.

(** ** Data model *)

Record Project := mkProject {
  code : option string;
  name : option string;
  organization : option string
}.

(** The object [{}] used as default project. *)
Definition emptyProject : Project := mkProject None None None.

(** One log record, raw or processed: processing copies the raw object and
    overrides [project] and the four optional text fields. *)
Record AttendanceRecord := mkRecord {
  uid : option string;
  sync_time : option string;
  logged_time : option string;
  type : option string;
  device_identifier : option string;
  person_identifier : option string;
  rfid : option string;
  location : option string;
  primary_display_text : option string;
  secondary_display_text : option string;
  project : option Project
}.

(** Query parameters sent to the log API. *)
Record Params := mkParams {
  start : string;
  end_ : string;
  api_token : option string;
  per_page : string + Z;
  criteria : string
}.

(** Body of a log API response. *)
Record ApiBody := mkBody {
  data : option (list AttendanceRecord);
  meta : option Json;
  body_project : option Project;
  links : option Json
}.

Record AxiosResponse := mkResponse {
  status : Z;
  response_data : ApiBody
}.

(** [error.response] of a failed request. *)
Record ErrorResponse := mkErrorResponse {
  error_status : Z;
  error_data_message : option string;
  statusText : string
}.

(** A thrown error object with the properties the services inspect. *)
Record JsError := mkError {
  error_name : string;
  error_message : string;
  error_code : option string;
  error_response : option ErrorResponse;
  error_request : bool
}.

(** [new Error(msg)] *)
Definition new_Error (msg : string) : JsError :=
  mkError "Error" msg None None false.

(** What [getAttendanceData] resolves to. *)
Record AttendanceResult := mkResult {
  records : list AttendanceRecord;
  result_meta : Json;
  result_project : Project;
  result_links : option Json
}.

(** A cell of the sheet; an empty cell is [None]. *)
Definition Cell := option string.
Definition Row := list Cell.

(** The result object of [performSync] and [performManualSync]; properties
    a branch does not set are [None]. *)
Record SyncResult := mkSyncResult {
  success : bool;
  message : string;
  error : option string;
  recordsFetched : option nat;
  recordsAdded : option nat;
  timestamp : Z;
  duration : option Z
}.

(** Query-string filters of [fetchAttendanceData]. *)
Record Filters := mkFilters {
  startTime : option string;
  endTime : option string;
  other_filters : list (string * string)
}.

(** The result object of [fetchAttendanceData]. *)
Record FetchResult := mkFetchResult {
  fetch_success : bool;
  fetch_message : string;
  fetch_error : option string;
  fetch_records : list AttendanceRecord;
  fetch_project : option Project;
  fetch_recordsFetched : nat;
  fetch_filters : option Filters;
  fetch_timestamp : Z;
  fetch_duration : Z
}.

(** ** Service objects *)

Record AttendanceService := mkAttendanceService {
  baseUrl : option string;
  apiToken : option string;
  perPage : string + Z;
  lastSyncTime : option Z
}.

(** The orchestrator object.  The sheets client is taken as initialised
    (the server awaits [initialize] before it accepts requests), so
    [ensureInitialized] does nothing. *)
Record SyncService := mkSyncService {
  attendanceService : AttendanceService;
  isRunning : bool;
  lastSyncResult : option SyncResult
}.

(** [new AttendanceService()] from the process environment. *)
Definition new_AttendanceService (TIPSOI_BASE_URL TIPSOI_API_TOKEN PER_PAGE : option string)
  : AttendanceService :=
  {| baseUrl := TIPSOI_BASE_URL;
     apiToken := TIPSOI_API_TOKEN;
     perPage := match PER_PAGE with
                | Some s => if s =? "" then inr 500%Z else inl s
                | None => inr 500%Z
                end;
     lastSyncTime := None |}.

(** [new SyncService()] *)
Definition new_SyncService (a : AttendanceService) : SyncService :=
  {| attendanceService := a; isRunning := false; lastSyncResult := None |}.

(** ** Asynchronous methods *)

(** A method body as a tree of effects.  [GetThis]/[SetThis] read and write
    the service object, [NewDate] is [new Date()] or [Date.now()],
    [GetFullYear] is [new Date().getFullYear()]; the last three nodes are
    awaited network calls, whose continuation receives the reply. *)
Inductive Async (A : Type) : Type :=
| Ret (a : A)
| Throw (e : JsError)
| GetThis (k : SyncService -> Async A)
| SetThis (s : SyncService) (k : Async A)
| NewDate (k : Z -> Async A)
| GetFullYear (k : Z -> Async A)
| AxiosGet (url : option string) (p : Params) (timeout : Z)
           (k : JsError + AxiosResponse -> Async A)
| ValuesGet (range : string) (k : JsError + list Row -> Async A)
| ValuesAppend (range : string) (rows : list Row) (k : option JsError -> Async A).

Arguments Ret {A} a.
Arguments Throw {A} e.
Arguments GetThis {A} k.
Arguments SetThis {A} s k.
Arguments NewDate {A} k.
Arguments GetFullYear {A} k.
Arguments AxiosGet {A} url p timeout k.
Arguments ValuesGet {A} range k.
Arguments ValuesAppend {A} range rows k.

Fixpoint bind {A B : Type} (m : Async A) (f : A -> Async B) : Async B :=
  match m with
  | Ret a => f a
  | Throw e => Throw e
  | GetThis k => GetThis (fun s => bind (k s) f)
  | SetThis s k => SetThis s (bind k f)
  | NewDate k => NewDate (fun t => bind (k t) f)
  | GetFullYear k => GetFullYear (fun y => bind (k y) f)
  | AxiosGet u p t k => AxiosGet u p t (fun r => bind (k r) f)
  | ValuesGet g k => ValuesGet g (fun r => bind (k r) f)
  | ValuesAppend g rows k => ValuesAppend g rows (fun r => bind (k r) f)
  end.

(** [try { m } catch (error) { h error }] *)
Fixpoint try_catch {A : Type} (m : Async A) (h : JsError -> Async A) : Async A :=
  match m with
  | Ret a => Ret a
  | Throw e => h e
  | GetThis k => GetThis (fun s => try_catch (k s) h)
  | SetThis s k => SetThis s (try_catch k h)
  | NewDate k => NewDate (fun t => try_catch (k t) h)
  | GetFullYear k => GetFullYear (fun y => try_catch (k y) h)
  | AxiosGet u p t k => AxiosGet u p t (fun r => try_catch (k r) h)
  | ValuesGet g k => ValuesGet g (fun r => try_catch (k r) h)
  | ValuesAppend g rows k => ValuesAppend g rows (fun r => try_catch (k r) h)
  end.

(** [try { m } finally { fin }]: [fin] runs on return and on throw alike. *)
Fixpoint try_finally {A : Type} (m : Async A) (fin : Async unit) : Async A :=
  match m with
  | Ret a => bind fin (fun _ => Ret a)
  | Throw e => bind fin (fun _ => Throw e)
  | GetThis k => GetThis (fun s => try_finally (k s) fin)
  | SetThis s k => SetThis s (try_finally k fin)
  | NewDate k => NewDate (fun t => try_finally (k t) fin)
  | GetFullYear k => GetFullYear (fun y => try_finally (k y) fin)
  | AxiosGet u p t k => AxiosGet u p t (fun r => try_finally (k r) fin)
  | ValuesGet g k => ValuesGet g (fun r => try_finally (k r) fin)
  | ValuesAppend g rows k => ValuesAppend g rows (fun r => try_finally (k r) fin)
  end.

Declare Scope async_scope.
Delimit Scope async_scope with async.
Notation "x <- m ;; k" := (bind m (fun x => k))
  (at level 61, m at next level, right associativity) : async_scope.
Notation "m ;;; k" := (bind m (fun _ => k))
  (at level 61, right associativity) : async_scope.
Local Open Scope async_scope.

Definition new_Date : Async Z := NewDate Ret.
Definition getFullYear : Async Z := GetFullYear Ret.
Definition get_this : Async SyncService := GetThis Ret.

(** [await] of a promise: a rejection is thrown at the await. *)
Definition await {A : Type} (r : JsError + A) : Async A :=
  match r with
  | inl e => Throw e
  | inr a => Ret a
  end.

Definition set_lastSyncTime (t : option Z) : Async unit :=
  GetThis (fun s =>
    let a := attendanceService s in
    SetThis {| attendanceService :=
                 {| baseUrl := baseUrl a; apiToken := apiToken a;
                    perPage := perPage a; lastSyncTime := t |};
               isRunning := isRunning s;
               lastSyncResult := lastSyncResult s |} (Ret tt)).

Definition set_isRunning (b : bool) : Async unit :=
  GetThis (fun s =>
    SetThis {| attendanceService := attendanceService s;
               isRunning := b;
               lastSyncResult := lastSyncResult s |} (Ret tt)).

Definition set_lastSyncResult (r : SyncResult) : Async unit :=
  GetThis (fun s =>
    SetThis {| attendanceService := attendanceService s;
               isRunning := isRunning s;
               lastSyncResult := Some r |} (Ret tt)).

(** ** attendanceService.js *)

Module AttendanceSvc.

(** [getAttendanceData(startTime, endTime, criteria)].  The two window
    arguments are only written to the console in the source; the query is
    built from the current calendar year. *)
Definition getAttendanceData (startTime endTime : Z) (criteria : string)
  : Async AttendanceResult :=
  try_catch
    (currentYear <- getFullYear ;;
     let defaultStartTime := string_of_Z currentYear ++ "-01-01T00:00:00" in
     let defaultEndTime := string_of_Z (currentYear + 1) ++ "-12-31T23:59:59" in
     this <- get_this ;;
     let params :=
       {| start := defaultStartTime;
          end_ := defaultEndTime;
          api_token := apiToken (attendanceService this);
          per_page := perPage (attendanceService this);
          criteria := criteria |} in
     response <- AxiosGet (baseUrl (attendanceService this)) params 30000 await ;;
     if negb (status response =? 200)%Z then
       Throw (new_Error ("API request failed with status: "
                         ++ string_of_Z (status response)))
     else
       let data_ := response_data response in
       match data data_ with
       | None =>
           Ret {| records := [];
                  result_meta := match meta data_ with Some j => j | None => "{}" end;
                  result_project :=
                    match body_project data_ with Some p => p | None => emptyProject end;
                  result_links := None |}
       | Some rs =>
           Ret {| records := rs;
                  result_meta := match meta data_ with Some j => j | None => "{}" end;
                  result_project :=
                    match body_project data_ with Some p => p | None => emptyProject end;
                  result_links :=
                    Some (match links data_ with Some j => j | None => "{}" end) |}
       end)
    (fun error =>
       if includes [Some "ECONNABORTED"] (error_code error) then
         Throw (new_Error "Request timeout - TIPSOI API took too long to respond")
       else
         match error_response error with
         | Some resp =>
             Throw (new_Error ("TIPSOI API error (" ++ string_of_Z (error_status resp)
                               ++ "): "
                               ++ or_else (error_data_message resp) (statusText resp)))
         | None =>
             if error_request error then
               Throw (new_Error "No response from TIPSOI API - network error")
             else
               Throw (new_Error ("Request setup error: " ++ error_message error))
         end).

(** [getRecentAttendanceData()]: since the last sync, or the last 24 hours. *)
Definition getRecentAttendanceData : Async AttendanceResult :=
  endTime <- new_Date ;;
  this <- get_this ;;
  let startTime :=
    match lastSyncTime (attendanceService this) with
    | Some t => t
    | None => (endTime - 24 * 60 * 60 * 1000)%Z
    end in
  result <- getAttendanceData startTime endTime "sync_time" ;;
  set_lastSyncTime (Some endTime) ;;;
  Ret result.

(** [getAttendanceDataForRange(startDate, endDate)] *)
Definition getAttendanceDataForRange (startDate endDate : Z) : Async AttendanceResult :=
  getAttendanceData startDate endDate "sync_time".

Definition requiredFields : list (AttendanceRecord -> option string) :=
  [uid; sync_time; logged_time; type; device_identifier; person_identifier].

(** [validateAttendanceRecord(record)] *)
Definition validateAttendanceRecord (record : AttendanceRecord) : bool :=
  if existsb (fun field => negb (truthy (field record))) requiredFields then false
  else if negb (includes [Some "card"; Some "fingerprint"; Some "face"] (type record))
  then false
  else true.

(** [processAttendanceRecords(records, project)] *)
Definition processAttendanceRecords (records : list AttendanceRecord) (project_ : Project)
  : list AttendanceRecord :=
  map (fun record =>
         {| uid := uid record;
            sync_time := sync_time record;
            logged_time := logged_time record;
            type := type record;
            device_identifier := device_identifier record;
            person_identifier := person_identifier record;
            project := Some project_;
            rfid := Some (or_else (rfid record) "");
            location := Some (or_else (location record) "");
            primary_display_text := Some (or_else (primary_display_text record) "");
            secondary_display_text := Some (or_else (secondary_display_text record) "") |})
      (filter validateAttendanceRecord records).

(** The object returned by [getStatus()]. *)
Record Status := mkStatus {
  status_baseUrl : option string;
  hasToken : bool;
  status_perPage : string + Z;
  status_lastSyncTime : option Z;
  tokenPreview : string
}.

(** [getStatus()] *)
Definition getStatus (this : AttendanceService) : Status :=
  {| status_baseUrl := baseUrl this;
     hasToken := truthy (apiToken this);
     status_perPage := perPage this;
     status_lastSyncTime := lastSyncTime this;
     tokenPreview :=
       if truthy (apiToken this)
       then match apiToken this with
            | Some t => substring 0 8 t ++ "..."
            | None => "Not set"
            end
       else "Not set" |}.

(** [s.replace(c, by)] for a one-character pattern: the first occurrence
    only. *)
Fixpoint replace_first (c : ascii) (by_ : string) (s : string) : string :=
  match s with
  | EmptyString => EmptyString
  | String x s' =>
      if Ascii.eqb x c then by_ ++ s' else String x (replace_first c by_ s')
  end.

(** [formatDateTime(date)], given the text of [date.toISOString()]. *)
Definition formatDateTime (toISOString : string) : string :=
  replace_first "T" " " (substring 0 19 toISOString).

(** The object returned by [testConnection()]. *)
Record ConnectionTest := mkConnectionTest {
  test_success : bool;
  test_message : string;
  recordCount : option nat;
  test_project : option Project;
  test_error : option JsError
}.

(** [testConnection()]: a query for the last minute. *)
Definition testConnection : Async ConnectionTest :=
  try_catch
    (endTime <- new_Date ;;
     let startTime := (endTime - 60 * 1000)%Z in
     result <- getAttendanceData startTime endTime "sync_time" ;;
     Ret {| test_success := true;
            test_message := "Connection successful";
            recordCount := Some (length (records result));
            test_project := Some (result_project result);
            test_error := None |})
    (fun error =>
       Ret {| test_success := false;
              test_message := error_message error;
              recordCount := None;
              test_project := None;
              test_error := Some error |}).

End AttendanceSvc.

(** ** googleSheetsService.js *)

Module GoogleSheetsSvc.

(** [getExistingUIDs()]: column A below the header; a failed read is logged
    and answered with the empty array. *)
Definition getExistingUIDs : Async (list (option string)) :=
  try_catch
    (values <- ValuesGet "A:A" await ;;
     if (1 <? length values)%nat then
       Ret (filter truthy (map (fun row => hd None row) (skipn 1 values)))
     else Ret [])
    (fun error => Ret []).

(** The sheet row written for a record, columns A to M. *)
Definition row_of (record : AttendanceRecord) : Row :=
  [ uid record;
    sync_time record;
    logged_time record;
    type record;
    device_identifier record;
    location record;
    person_identifier record;
    Some (or_else (rfid record) "");
    primary_display_text record;
    secondary_display_text record;
    Some (or_else (match project record with Some p => code p | None => None end) "");
    Some (or_else (match project record with Some p => name p | None => None end) "");
    Some (or_else (match project record with Some p => organization p | None => None end) "") ].

(** [appendAttendanceData(attendanceRecords)]; a bare [return;] yields
    [undefined], which is [None] here. *)
Definition appendAttendanceData (attendanceRecords : list AttendanceRecord)
  : Async (option nat) :=
  if (length attendanceRecords =? 0)%nat then Ret None
  else
    try_catch
      (existingUIDs <- getExistingUIDs ;;
       let newRecords :=
         filter (fun record => negb (includes existingUIDs (uid record)))
                attendanceRecords in
       if (length newRecords =? 0)%nat then Ret None
       else
         let rows := map row_of newRecords in
         ValuesAppend "A:M" rows
           (fun r => match r with Some e => Throw e | None => Ret tt end) ;;;
         Ret (Some (length newRecords)))
      (fun error => Throw error).

(** The header cells of [createHeaderRow]. *)
Definition headers : Row :=
  [ Some "UID"; Some "Sync Time"; Some "Logged Time"; Some "Type"; Some "Device ID";
    Some "Location"; Some "Person ID"; Some "RFID"; Some "Primary Display";
    Some "Secondary Display"; Some "Project Code"; Some "Project Name";
    Some "Organization" ].

(** The reply to [values.get] on A1:M1: the first thirteen cells of row 1,
    and no [values] at all when these are all empty. *)
Definition row_1 (rows : list Row) : option (list Row) :=
  match rows with
  | [] => None
  | r :: _ =>
      if forallb (fun c => negb (truthy c)) (firstn 13 r) then None
      else Some [firstn 13 r]
  end.

(** The effect of [values.update] on A1:M1 with one row of thirteen cells. *)
Definition update_row_1 (values : Row) (rows : list Row) : list Row :=
  match rows with
  | [] => [values]
  | r :: rest => (values ++ skipn 13 r)%list :: rest
  end.

(** [createHeaderRow()] on the rows of the sheet, given whether the read and
    the write are refused; both failures are logged and thrown again. *)
Definition createHeaderRow (getError updateError : option JsError) (rows : list Row)
  : list Row * (JsError + unit) :=
  match getError with
  | Some e => (rows, inl e)
  | None =>
      if match row_1 rows with
         | None => true
         | Some values => (length values =? 0)%nat
         end
      then
        match updateError with
        | Some e => (rows, inl e)
        | None => (update_row_1 headers rows, inr tt)
        end
      else (rows, inr tt)
  end.

End GoogleSheetsSvc.

(** ** syncService.js *)

Module SyncSvc.

Import AttendanceSvc GoogleSheetsSvc.

(** [recordsAdded || 0] *)
Definition or_zero (n : option nat) : nat :=
  match n with
  | Some k => k
  | None => 0%nat
  end.

(** [performSync()]: the scheduled sync and [POST /sync]. *)
Definition performSync : Async SyncResult :=
  syncStartTime <- new_Date ;;
  try_finally
    (try_catch
       (this <- get_this ;;
        if isRunning this then
          Ret {| success := false;
                 message := "Sync already in progress";
                 error := None;
                 recordsFetched := None;
                 recordsAdded := None;
                 timestamp := syncStartTime;
                 duration := None |}
        else
          set_isRunning true ;;;
          attendanceResult <- getRecentAttendanceData ;;
          if (length (records attendanceResult) =? 0)%nat then
            now_ <- new_Date ;;
            let result :=
              {| success := true;
                 message := "No new records";
                 error := None;
                 recordsFetched := Some 0%nat;
                 recordsAdded := Some 0%nat;
                 timestamp := syncStartTime;
                 duration := Some (now_ - syncStartTime)%Z |} in
            set_lastSyncResult result ;;;
            Ret result
          else
            let processedRecords :=
              processAttendanceRecords (records attendanceResult)
                                       (result_project attendanceResult) in
            if (length processedRecords =? 0)%nat then
              now_ <- new_Date ;;
              let result :=
                {| success := true;
                   message := "No valid records to sync";
                   error := None;
                   recordsFetched := Some (length (records attendanceResult));
                   recordsAdded := Some 0%nat;
                   timestamp := syncStartTime;
                   duration := Some (now_ - syncStartTime)%Z |} in
              set_lastSyncResult result ;;;
              Ret result
            else
              recordsAdded_ <- appendAttendanceData processedRecords ;;
              syncEndTime <- new_Date ;;
              let result :=
                {| success := true;
                   message := "Sync completed successfully";
                   error := None;
                   recordsFetched := Some (length (records attendanceResult));
                   recordsAdded := Some (or_zero recordsAdded_);
                   timestamp := syncStartTime;
                   duration := Some (syncEndTime - syncStartTime)%Z |} in
              set_lastSyncResult result ;;;
              Ret result)
       (fun error_ =>
          now_ <- new_Date ;;
          let result :=
            {| success := false;
               message := error_message error_;
               error := Some (error_name error_);
               recordsFetched := Some 0%nat;
               recordsAdded := Some 0%nat;
               timestamp := syncStartTime;
               duration := Some (now_ - syncStartTime)%Z |} in
          set_lastSyncResult result ;;;
          Ret result))
    (set_isRunning false).

(** [fetchAttendanceData(filters)]: [GET /data].  The source passes
    [queryFilters] to [getRecentAttendanceData], which takes no argument. *)
Definition fetchAttendanceData (filters : Filters) : Async FetchResult :=
  fetchStartTime <- new_Date ;;
  try_catch
    (currentYear <- getFullYear ;;
     let defaultStartTime :=
       or_else (startTime filters) (string_of_Z currentYear ++ "-01-01T00:00:00") in
     let defaultEndTime :=
       or_else (endTime filters) (string_of_Z (currentYear + 1) ++ "-12-31T23:59:59") in
     let queryFilters :=
       {| startTime := Some defaultStartTime;
          endTime := Some defaultEndTime;
          other_filters := other_filters filters |} in
     attendanceResult <- getRecentAttendanceData ;;
     if (length (records attendanceResult) =? 0)%nat then
       now_ <- new_Date ;;
       Ret {| fetch_success := true;
              fetch_message := "No records found";
              fetch_error := None;
              fetch_records := [];
              fetch_project := Some (result_project attendanceResult);
              fetch_recordsFetched := 0;
              fetch_filters := Some queryFilters;
              fetch_timestamp := fetchStartTime;
              fetch_duration := (now_ - fetchStartTime)%Z |}
     else
       let processedRecords :=
         processAttendanceRecords (records attendanceResult)
                                  (result_project attendanceResult) in
       if (length processedRecords =? 0)%nat then
         now_ <- new_Date ;;
         Ret {| fetch_success := true;
                fetch_message := "No valid records after processing";
                fetch_error := None;
                fetch_records := [];
                fetch_project := Some (result_project attendanceResult);
                fetch_recordsFetched := length (records attendanceResult);
                fetch_filters := Some queryFilters;
                fetch_timestamp := fetchStartTime;
                fetch_duration := (now_ - fetchStartTime)%Z |}
       else
         fetchEndTime <- new_Date ;;
         Ret {| fetch_success := true;
                fetch_message := "Data fetched successfully";
                fetch_error := None;
                fetch_records := processedRecords;
                fetch_project := Some (result_project attendanceResult);
                fetch_recordsFetched := length processedRecords;
                fetch_filters := Some queryFilters;
                fetch_timestamp := fetchStartTime;
                fetch_duration := (fetchEndTime - fetchStartTime)%Z |})
    (fun error_ =>
       now_ <- new_Date ;;
       Ret {| fetch_success := false;
              fetch_message := error_message error_;
              fetch_error := Some (error_name error_);
              fetch_records := [];
              fetch_project := None;
              fetch_recordsFetched := 0;
              fetch_filters := None;
              fetch_timestamp := fetchStartTime;
              fetch_duration := (now_ - fetchStartTime)%Z |}).

(** [performManualSync(startDate, endDate)]: [POST /sync/range]. *)
Definition performManualSync (startDate endDate : Z) : Async SyncResult :=
  syncStartTime <- new_Date ;;
  try_finally
    (try_catch
       (this <- get_this ;;
        (if isRunning this
         then Throw (new_Error "Another sync operation is already running")
         else Ret tt) ;;;
        set_isRunning true ;;;
        attendanceResult <- getAttendanceDataForRange startDate endDate ;;
        if (length (records attendanceResult) =? 0)%nat then
          now_ <- new_Date ;;
          Ret {| success := true;
                 message := "No records found in the specified date range";
                 error := None;
                 recordsFetched := Some 0%nat;
                 recordsAdded := Some 0%nat;
                 timestamp := syncStartTime;
                 duration := Some (now_ - syncStartTime)%Z |}
        else
          let processedRecords :=
            processAttendanceRecords (records attendanceResult)
                                     (result_project attendanceResult) in
          recordsAdded_ <- appendAttendanceData processedRecords ;;
          now_ <- new_Date ;;
          let duration_ := (now_ - syncStartTime)%Z in
          Ret {| success := true;
                 message := "Manual sync completed successfully";
                 error := None;
                 recordsFetched := Some (length (records attendanceResult));
                 recordsAdded := Some (or_zero recordsAdded_);
                 timestamp := syncStartTime;
                 duration := Some duration_ |})
       (fun error_ =>
          now_ <- new_Date ;;
          Ret {| success := false;
                 message := error_message error_;
                 error := Some (error_name error_);
                 recordsFetched := None;
                 recordsAdded := None;
                 timestamp := syncStartTime;
                 duration := Some (now_ - syncStartTime)%Z |}))
    (set_isRunning false).

(** The job object of node-cron, as far as the service uses it. *)
Record CronJob := mkCronJob {
  cron_expression : string;
  cron_timezone : string;
  cron_started : bool
}.

(** The scheduling fields of the orchestrator object. *)
Record Scheduler := mkScheduler {
  cronJob : option CronJob;
  syncInterval : string
}.

(** The scheduling fields after [new SyncService()]. *)
Definition new_Scheduler (SYNC_INTERVAL : option string) : Scheduler :=
  {| cronJob := None; syncInterval := or_else SYNC_INTERVAL "*/5 * * * *" |}.

Section Cron.

(** [cron.validate] of node-cron. *)
Variable validate : string -> bool.

(** [startCronJob()] *)
Definition startCronJob (this : Scheduler) : Scheduler * (JsError + bool) :=
  match cronJob this with
  | Some _ => (this, inr false)
  | None =>
      if negb (validate (syncInterval this)) then
        (this, inl (new_Error ("Invalid cron expression: " ++ syncInterval this)))
      else
        ({| cronJob := Some {| cron_expression := syncInterval this;
                               cron_timezone := "UTC";
                               cron_started := true |};
            syncInterval := syncInterval this |},
         inr true)
  end.

End Cron.

(** [stopCronJob()] *)
Definition stopCronJob (this : Scheduler) : Scheduler * bool :=
  match cronJob this with
  | Some _ => ({| cronJob := None; syncInterval := syncInterval this |}, true)
  | None => (this, false)
  end.

(** [isCronJobRunning()] *)
Definition isCronJobRunning (this : Scheduler) : bool :=
  match cronJob this with
  | Some _ => true
  | None => false
  end.

End SyncSvc.

(** ** The event loop and the outside world *)

(** A network call as it leaves the process. *)
Inductive Call :=
| CallAxiosGet (url : option string) (p : Params) (timeout : Z)
| CallValuesGet (range : string)
| CallValuesAppend (range : string) (rows : list Row).

(** The process and what it talks to: the orchestrator object, the rows of
    the remote sheet (header first), and the calls issued so far. *)
Record Machine := mkMachine {
  this_ : SyncService;
  sheet : list Row;
  calls : list Call
}.

(** What the outside world answers during one uninterrupted run of code:
    the clock, the local calendar year, the reply of the log API, and
    whether a sheet read or a sheet append is refused. *)
Record Env := mkEnv {
  now : Z;
  fullYear : Z;
  upstream : JsError + AxiosResponse;
  valuesGetError : option JsError;
  valuesAppendError : option JsError
}.

Definition log_call (c : Call) (m : Machine) : Machine :=
  {| this_ := this_ m; sheet := sheet m; calls := calls m ++ [c] |}.

(** Runs a method up to its next awaited network call (which it issues),
    or to its end. *)
Fixpoint run_sync {A : Type} (e : Env) (m : Machine) (p : Async A) : Machine * Async A :=
  match p with
  | Ret _ | Throw _ => (m, p)
  | GetThis k => run_sync e m (k (this_ m))
  | SetThis s k => run_sync e {| this_ := s; sheet := sheet m; calls := calls m |} k
  | NewDate k => run_sync e m (k (now e))
  | GetFullYear k => run_sync e m (k (fullYear e))
  | AxiosGet u q t _ => (log_call (CallAxiosGet u q t) m, p)
  | ValuesGet g _ => (log_call (CallValuesGet g) m, p)
  | ValuesAppend g rows _ => (log_call (CallValuesAppend g rows) m, p)
  end.

(** The reply to [values.get] on column A: the first cell of every row. *)
Definition column_A (rows : list Row) : list Row := map (firstn 1) rows.

(** Delivers the reply of the pending call and runs the method on.  An
    accepted append adds its rows below the last row of the sheet. *)
Definition resume {A : Type} (e : Env) (m : Machine) (p : Async A) : Machine * Async A :=
  match p with
  | AxiosGet _ _ _ k => run_sync e m (k (upstream e))
  | ValuesGet _ k =>
      match valuesGetError e with
      | Some err => run_sync e m (k (inl err))
      | None => run_sync e m (k (inr (column_A (sheet m))))
      end
  | ValuesAppend _ rows k =>
      match valuesAppendError e with
      | Some err => run_sync e m (k (Some err))
      | None =>
          run_sync e {| this_ := this_ m; sheet := sheet m ++ rows; calls := calls m |}
                   (k None)
      end
  | _ => (m, p)
  end.

Fixpoint resume_all {A : Type} (es : list Env) (m : Machine) (p : Async A)
  : Machine * Async A :=
  match es with
  | [] => (m, p)
  | e :: es' => let (m', p') := resume e m p in resume_all es' m' p'
  end.

(** A call of a method with nothing else running in between: the first
    environment serves the code up to the first await, each further one
    serves one reply. *)
Definition call {A : Type} (es : list Env) (m : Machine) (p : Async A)
  : Machine * Async A :=
  match es with
  | [] => (m, p)
  | e :: es' => let (m', p') := run_sync e m p in resume_all es' m' p'
  end.

(** A method that has not settled yet. *)
Definition pending {A : Type} (p : Async A) : bool :=
  match p with
  | Ret _ | Throw _ => false
  | _ => true
  end.

(** *** Several requests in flight *)

Inductive Entry :=
| Auto
| Manual (startDate endDate : Z)
| Query (filters : Filters).

Definition entry_point (en : Entry) : Async (SyncResult + FetchResult) :=
  match en with
  | Auto => r <- SyncSvc.performSync ;; Ret (inl r)
  | Manual s e => r <- SyncSvc.performManualSync s e ;; Ret (inl r)
  | Query f => r <- SyncSvc.fetchAttendanceData f ;; Ret (inr r)
  end.

(** One turn of the event loop: a new request is taken up, or the reply for
    the [i]-th request arrives. *)
Inductive Turn :=
| Invoke (en : Entry) (e : Env)
| Reply (i : nat) (e : Env).

Definition Tasks := list (Async (SyncResult + FetchResult)).

Fixpoint replace_nth {A : Type} (i : nat) (x : A) (l : list A) : list A :=
  match l, i with
  | [], _ => []
  | _ :: l', O => x :: l'
  | y :: l', S i' => y :: replace_nth i' x l'
  end.

Definition turn (t : Turn) (st : Machine * Tasks) : Machine * Tasks :=
  let (m, ts) := st in
  match t with
  | Invoke en e =>
      let (m', p') := run_sync e m (entry_point en) in (m', (ts ++ [p'])%list)
  | Reply i e =>
      match nth_error ts i with
      | Some p => let (m', p') := resume e m p in (m', replace_nth i p' ts)
      | None => st
      end
  end.

Definition turns (l : list Turn) (st : Machine * Tasks) : Machine * Tasks :=
  fold_left (fun st t => turn t st) l st.

(** The uids of the data rows of the sheet. *)
Definition sheet_uids (rows : list Row) : list (option string) :=
  filter truthy (map (fun row => hd None row) (skipn 1 rows)).

(** ** The specification's words *)

(** A field that is present and non-empty. *)
Definition present (v : option string) : Prop :=
  exists s, v = Some s /\ s <> "".

(** The validity invariant of the data model. *)
Definition valid_record (r : AttendanceRecord) : Prop :=
  present (uid r) /\ present (sync_time r) /\ present (logged_time r) /\
  present (type r) /\ present (device_identifier r) /\ present (person_identifier r) /\
  (type r = Some "card" \/ type r = Some "fingerprint" \/ type r = Some "face").

(** The empty string when a field is absent, the field otherwise. *)
Definition default_empty (v : option string) : string :=
  match v with
  | Some s => s
  | None => ""
  end.

(** [o] is the normalised form of the raw record [r] in a batch of project [p]. *)
Definition normalized (p : Project) (r o : AttendanceRecord) : Prop :=
  uid o = uid r /\ sync_time o = sync_time r /\ logged_time o = logged_time r /\
  type o = type r /\ device_identifier o = device_identifier r /\
  person_identifier o = person_identifier r /\
  rfid o = Some (default_empty (rfid r)) /\
  location o = Some (default_empty (location r)) /\
  primary_display_text o = Some (default_empty (primary_display_text r)) /\
  secondary_display_text o = Some (default_empty (secondary_display_text r)) /\
  project o = Some p.

(** The first eight characters of the configured token, none without one. *)
Definition token_prefix (a : AttendanceService) : string :=
  substring 0 8 (default_empty (apiToken a)).

(** A record that carries a dedup key. *)
Definition has_uid (r : AttendanceRecord) : Prop := truthy (uid r) = true.

(** The set difference: the records of a batch whose uid is not yet among
    the uids of the sheet of [m]. *)
Definition new_records (m : Machine) (batch : list AttendanceRecord)
  : list AttendanceRecord :=
  filter (fun record => negb (includes (sheet_uids (sheet m)) (uid record))) batch.

(** ** Example data *)

Definition example_url : option string := Some "https://logs.example/api/v1/logs".

Definition example_attendance (watermark : option Z) : AttendanceService :=
  {| baseUrl := example_url;
     apiToken := Some "abcd-1234-efgh-5678";
     perPage := inr 500%Z;
     lastSyncTime := watermark |}.

(** A machine whose sheet has the given rows. *)
Definition example_machine (watermark : option Z) (running : bool) (rows : list Row)
  : Machine :=
  {| this_ := {| attendanceService := example_attendance watermark;
                 isRunning := running;
                 lastSyncResult := None |};
     sheet := rows;
     calls := [] |}.

(** The header written by [createHeaderRow]. *)
Definition header_row : Row :=
  map Some ["UID"; "Sync Time"; "Logged Time"; "Type"; "Device ID"; "Location";
            "Person ID"; "RFID"; "Primary Display"; "Secondary Display";
            "Project Code"; "Project Name"; "Organization"].

Definition example_project : Project :=
  mkProject (Some "P1") (Some "Head office") (Some "Example Ltd").

(** A valid raw record with the given uid. *)
Definition example_record (u : string) : AttendanceRecord :=
  {| uid := Some u;
     sync_time := Some "2024-06-01 08:00:05";
     logged_time := Some "2024-06-01 08:00:00";
     type := Some "card";
     device_identifier := Some "gate-1";
     person_identifier := Some "emp-17";
     rfid := None;
     location := None;
     primary_display_text := None;
     secondary_display_text := None;
     project := None |}.

(** A 200 response carrying records with the given uids. *)
Definition example_response (us : list string) : JsError + AxiosResponse :=
  inr {| status := 200;
         response_data :=
           {| data := Some (map example_record us);
              meta := None;
              body_project := Some example_project;
              links := None |} |}.

(** The error axios raises when the 30 s timeout expires. *)
Definition timeout_error : JsError :=
  {| error_name := "AxiosError";
     error_message := "timeout of 30000ms exceeded";
     error_code := Some "ECONNABORTED";
     error_response := None;
     error_request := true |}.

Definition store_error : JsError :=
  {| error_name := "GaxiosError";
     error_message := "The service is currently unavailable.";
     error_code := Some "503";
     error_response := None;
     error_request := false |}.

(** An environment at time [t] in 2024 in which every call is answered. *)
Definition example_env (t : Z) (reply : JsError + AxiosResponse) : Env :=
  {| now := t; fullYear := 2024; upstream := reply;
     valuesGetError := None; valuesAppendError := None |}.

(** The same, with the sheet refusing reads, respectively appends. *)
Definition failing_read_env (t : Z) : Env :=
  {| now := t; fullYear := 2024; upstream := inl timeout_error;
     valuesGetError := Some store_error; valuesAppendError := None |}.

Definition failing_append_env (t : Z) : Env :=
  {| now := t; fullYear := 2024; upstream := inl timeout_error;
     valuesGetError := None; valuesAppendError := Some store_error |}.

(** 2024-06-01T00:00:00Z and 2024-06-02T00:00:00Z. *)
Definition june_1 : Z := 1717200000000.
Definition june_2 : Z := 1717286400000.

(** The query every call of [getAttendanceData] issues in year [y]. *)
Definition year_query (a : AttendanceService) (y : Z) (criteria_ : string) : Call :=
  CallAxiosGet (baseUrl a)
    {| start := string_of_Z y ++ "-01-01T00:00:00";
       end_ := string_of_Z (y + 1) ++ "-12-31T23:59:59";
       api_token := apiToken a;
       per_page := perPage a;
       criteria := criteria_ |} 30000.

(** The entry points that synchronise, as opposed to the read-only query. *)
Definition is_sync (en : Entry) : bool :=
  match en with
  | Auto | Manual _ _ => true
  | Query _ => false
  end.

(** A record as the log API sends it when the person is unknown. *)
Definition record_without_person : AttendanceRecord :=
  {| uid := Some "x";
     sync_time := Some "2024-06-01 08:00:05";
     logged_time := Some "2024-06-01 08:00:00";
     type := Some "card";
     device_identifier := Some "gate-1";
     person_identifier := None;
     rfid := None;
     location := None;
     primary_display_text := None;
     secondary_display_text := None;
     project := None |}.

(** A 200 response carrying the given records. *)
Definition response_with (rs : list AttendanceRecord) : AxiosResponse :=
  {| status := 200;
     response_data :=
       {| data := Some rs; meta := None;
          body_project := Some example_project; links := None |} |}.

(** The records of a response after [processAttendanceRecords], as the
    orchestrator passes them on. *)
Definition batch_of (resp : AxiosResponse) : list AttendanceRecord :=
  AttendanceSvc.processAttendanceRecords
    (match data (response_data resp) with Some rs => rs | None => [] end)
    (match body_project (response_data resp) with Some p => p | None => emptyProject end).

(** The number of raw records of a response. *)
Definition raw_count (resp : AxiosResponse) : nat :=
  length (match data (response_data resp) with Some rs => rs | None => [] end).

(** ** Proof automation *)

(** Splits on the next test the code performs on outside data. *)
Ltac break :=
  match goal with
  | |- context [Nat.eqb (length ?l) 0] => destruct l eqn:?
  | |- context [negb ?b] => destruct b eqn:?
  | |- context [match ?x with _ => _ end] =>
      let T := type of x in
      lazymatch T with
      | prod _ _ => fail
      | Async _ => fail
      | _ => destruct x eqn:?
      end
  end.

Ltac crunch :=
  repeat (cbn; unfold GoogleSheetsSvc.appendAttendanceData,
            GoogleSheetsSvc.getExistingUIDs, await; cbn; break); cbn.

(** The same with the lists kept folded, for statements about the rows
    written; [tac] rewrites with the hypotheses at hand. *)
Ltac quiet := cbn -[column_A Nat.ltb skipn filter includes map
                    AttendanceSvc.processAttendanceRecords].

Ltac break_quiet :=
  match goal with
  | H : Nat.eqb (length ?l) 0 = _ |- context [Nat.eqb (length ?l) 0] => rewrite H
  | |- context [Nat.eqb (length ?l) 0] => destruct (Nat.eqb (length l) 0) eqn:?
  | |- context [match ?x with _ => _ end] =>
      let T := type of x in
      lazymatch T with
      | prod _ _ => fail
      | Async _ => fail
      | _ => destruct x eqn:?
      end
  end.

Ltac crunch_with tac :=
  repeat (quiet; unfold GoogleSheetsSvc.appendAttendanceData,
            GoogleSheetsSvc.getExistingUIDs, await; quiet;
          first [progress tac | break_quiet]); quiet.

Ltac empty_lists :=
  repeat match goal with
         | H : Nat.eqb (length ?l) 0 = true |- _ =>
             apply Nat.eqb_eq, length_zero_iff_nil in H;
             first [rewrite H in * | subst]
         end.

(** ** Properties of the pure functions *)

Lemma truthy_present (v : option string) : truthy v = true <-> present v.
Proof.
  unfold present. destruct v as [s|]; simpl.
  - rewrite negb_true_iff. split.
    + intros H. exists s. split; [reflexivity|].
      intros ->. discriminate.
    + intros (s' & [= <-] & Hne). apply String.eqb_neq. exact Hne.
  - split; [discriminate|]. intros (s' & [=] & _).
Qed.

Lemma or_else_default (v : option string) : or_else v "" = default_empty v.
Proof.
  unfold or_else. destruct v as [s|]; simpl; [|reflexivity].
  destruct (String.eqb_spec s ""); simpl; congruence.
Qed.

Lemma strict_eq_true (a b : option string) : strict_eq a b = true <-> a = b.
Proof.
  destruct a as [s|], b as [t|]; simpl; try (split; congruence).
  rewrite String.eqb_eq. split; congruence.
Qed.

Lemma includes_In (xs : list (option string)) (v : option string) :
  includes xs v = true <-> In v xs.
Proof.
  unfold includes. rewrite existsb_exists. split.
  - intros (x & Hin & Heq). apply strict_eq_true in Heq. subst. exact Hin.
  - intros Hin. exists v. split; [exact Hin|]. apply strict_eq_true. reflexivity.
Qed.

Lemma validateAttendanceRecord_valid (r : AttendanceRecord) :
  AttendanceSvc.validateAttendanceRecord r = true <-> valid_record r.
Proof.
  unfold AttendanceSvc.validateAttendanceRecord, valid_record,
    AttendanceSvc.requiredFields.
  repeat rewrite <- truthy_present.
  cbn [existsb].
  destruct (truthy (uid r)), (truthy (sync_time r)), (truthy (logged_time r)),
    (truthy (type r)), (truthy (device_identifier r)), (truthy (person_identifier r));
    cbn [negb orb];
    try (split; [discriminate | intros (? & ? & ? & ? & ? & ? & ?); discriminate]).
  destruct (includes [Some "card"; Some "fingerprint"; Some "face"] (type r)) eqn:Hinc;
    cbn [negb].
  - apply includes_In in Hinc. cbn [In] in Hinc.
    split; [intros _ | reflexivity].
    repeat (split; [reflexivity|]).
    destruct Hinc as [H | [H | [H | []]]]; auto.
  - split; [discriminate|].
    intros (_ & _ & _ & _ & _ & _ & Hty).
    assert (In (type r) [Some "card"; Some "fingerprint"; Some "face"]) as Hin
      by (cbn [In]; destruct Hty as [H | [H | H]]; auto).
    apply includes_In in Hin. congruence.
Qed.

(** C9.  Normalisation keeps, in order, exactly the records that satisfy the
    validity invariant (all six required fields present and non-empty, type
    one of card, fingerprint, face); it is a total function, so a bad record
    never fails the batch; and every kept record carries the batch project
    and has its four optional text fields set, to the empty string when they
    were absent. *)
Theorem processAttendanceRecords_keeps_valid
  (records : list AttendanceRecord) (p : Project) :
  (forall r, AttendanceSvc.validateAttendanceRecord r = true <-> valid_record r) /\
  Forall2 (normalized p)
          (filter AttendanceSvc.validateAttendanceRecord records)
          (AttendanceSvc.processAttendanceRecords records p).
Proof.
  split; [exact validateAttendanceRecord_valid|].
  unfold AttendanceSvc.processAttendanceRecords.
  induction (filter AttendanceSvc.validateAttendanceRecord records) as [|r kept IH];
    cbn [map]; constructor; [|exact IH].
  unfold normalized; cbn.
  repeat rewrite or_else_default. repeat split; reflexivity.
Qed.

(** C10.  The status report shows of the API token only whether one is set
    and its first eight characters: two services that agree on these (and on
    the other reported fields) produce the same status, whatever the rest of
    their tokens. *)
Theorem getStatus_token_noninterference (a1 a2 : AttendanceService) :
  baseUrl a1 = baseUrl a2 ->
  perPage a1 = perPage a2 ->
  lastSyncTime a1 = lastSyncTime a2 ->
  truthy (apiToken a1) = truthy (apiToken a2) ->
  token_prefix a1 = token_prefix a2 ->
  AttendanceSvc.getStatus a1 = AttendanceSvc.getStatus a2.
Proof.
  unfold AttendanceSvc.getStatus, token_prefix.
  intros -> -> -> Htruthy Hprefix.
  destruct (apiToken a1) as [t1|], (apiToken a2) as [t2|];
    cbn [truthy default_empty] in *.
  - rewrite Htruthy, Hprefix. reflexivity.
  - rewrite Htruthy. reflexivity.
  - rewrite <- Htruthy. reflexivity.
  - reflexivity.
Qed.

Lemma getStatus_token_noninterference_witness :
  AttendanceSvc.getStatus
    (mkAttendanceService example_url (Some "abcd-1234-efgh-5678") (inr 500%Z) None)
  = AttendanceSvc.getStatus
    (mkAttendanceService example_url (Some "abcd-123X-another-token") (inr 500%Z) None).
Proof.
  apply getStatus_token_noninterference; reflexivity.
Defined.

(** ** Runs of the asynchronous methods *)

Lemma resume_all_settled {A : Type} (es : list Env) (m : Machine) (p : Async A) :
  pending p = false -> resume_all es m p = (m, p).
Proof.
  intros H. induction es as [|e es IH]; [reflexivity|].
  destruct p; try discriminate; cbn; exact IH.
Qed.

Ltac settle :=
  rewrite ?resume_all_settled by reflexivity; cbn.

(** Whatever window it is given, [getAttendanceData] asks for the current
    and the next calendar year. *)
Lemma getAttendanceData_query (e : Env) (m : Machine) (s t : Z) (c : string) :
  fst (run_sync e m (AttendanceSvc.getAttendanceData s t c))
  = log_call (year_query (attendanceService (this_ m)) (fullYear e) c) m.
Proof. reflexivity. Qed.

Lemma getAttendanceData_window_irrelevant
  (e : Env) (m : Machine) (s1 t1 s2 t2 : Z) (c : string) :
  fst (run_sync e m (AttendanceSvc.getAttendanceData s1 t1 c))
  = fst (run_sync e m (AttendanceSvc.getAttendanceData s2 t2 c)).
Proof. rewrite !getAttendanceData_query. reflexivity. Qed.

(** C1.  An auto sync on 2 June 2024 with the watermark at 1 June, a first
    auto sync with no watermark, and a manual sync of the window from 1 June
    to 2 June all send the same query: from 1 January 2024 to 31 December
    2025.  The window is not part of the request. *)
Theorem auto_sync_query_ignores_window :
  let whole_years :=
    CallAxiosGet example_url
      {| start := "2024-01-01T00:00:00";
         end_ := "2025-12-31T23:59:59";
         api_token := Some "abcd-1234-efgh-5678";
         per_page := inr 500%Z;
         criteria := "sync_time" |} 30000 in
  let e := example_env june_2 (example_response []) in
  calls (fst (run_sync e (example_machine (Some june_1) false [header_row])
                       SyncSvc.performSync)) = [whole_years] /\
  calls (fst (run_sync e (example_machine None false [header_row])
                       SyncSvc.performSync)) = [whole_years] /\
  calls (fst (run_sync e (example_machine None false [header_row])
                       (SyncSvc.performManualSync june_1 june_2))) = [whole_years].
Proof. cbv zeta. repeat split; reflexivity. Qed.

(** C2, as the code has it.  A call of [performSync] always settles with a
    result.  The watermark is set to the time captured when the attempt
    started as soon as the log API answers with status 200, before the
    records are processed and appended, so whatever the sheet does
    afterwards; it keeps its value when the attempt is turned away by the
    running flag and when the request to the log API fails. *)
Theorem performSync_watermark (e0 e1 e2 e3 : Env) (es : list Env) (m : Machine) :
  let r := call (e0 :: e1 :: e2 :: e3 :: es) m SyncSvc.performSync in
  (exists res, snd r = Ret res) /\
  lastSyncTime (attendanceService (this_ (fst r))) =
    if isRunning (this_ m) then lastSyncTime (attendanceService (this_ m))
    else match upstream e1 with
         | inr resp => if (status resp =? 200)%Z then Some (now e0)
                       else lastSyncTime (attendanceService (this_ m))
         | inl _ => lastSyncTime (attendanceService (this_ m))
         end.
Proof.
  cbv zeta. unfold call, SyncSvc.performSync.
  crunch; settle; (split; [eexists; reflexivity | congruence]).
Qed.

(** C2, counterexample.  The log API delivers one valid record, the sheet
    refuses the append: the attempt fails, yet the watermark has moved from
    1 June to 2 June. *)
Lemma watermark_advanced_when_append_fails :
  let m := example_machine (Some june_1) false [header_row] in
  let r := call [example_env june_2 (example_response []);
                 example_env (june_2 + 800) (example_response ["a"]);
                 example_env (june_2 + 900) (example_response []);
                 failing_append_env (june_2 + 1000)] m SyncSvc.performSync in
  (exists res, snd r = Ret res /\ success res = false /\
               message res = "The service is currently unavailable.") /\
  lastSyncTime (attendanceService (this_ m)) = Some june_1 /\
  lastSyncTime (attendanceService (this_ (fst r))) = Some june_2 /\
  sheet (fst r) = [header_row].
Proof.
  cbv zeta. split; [eexists; repeat split; reflexivity | repeat split; reflexivity].
Qed.

(** C7, as the code has it.  An auto sync that passes the running flag
    stores the result it returns in [lastSyncResult], on success and on
    failure; an auto sync that is turned away, and every manual sync, leave
    [lastSyncResult] as it was and only return their result. *)
Theorem lastSyncResult_after_attempt
  (e0 e1 e2 e3 : Env) (es : list Env) (m : Machine) (startDate endDate : Z) :
  let auto := call (e0 :: e1 :: e2 :: e3 :: es) m SyncSvc.performSync in
  let manual := call (e0 :: e1 :: e2 :: e3 :: es) m
                     (SyncSvc.performManualSync startDate endDate) in
  (exists res, snd auto = Ret res /\
     lastSyncResult (this_ (fst auto)) =
       if isRunning (this_ m) then lastSyncResult (this_ m) else Some res) /\
  (exists res, snd manual = Ret res /\
     lastSyncResult (this_ (fst manual)) = lastSyncResult (this_ m)).
Proof.
  cbv zeta. split.
  - unfold call, SyncSvc.performSync.
    crunch; settle; eexists; split; reflexivity.
  - unfold call, SyncSvc.performManualSync.
    crunch; settle; eexists; split; reflexivity.
Qed.

(** C7, counterexample.  A manual sync that appends one record completes
    successfully and [lastSyncResult] is still unset. *)
Lemma manual_sync_keeps_lastSyncResult :
  let m := example_machine None false [header_row] in
  let r := call [example_env june_2 (example_response []);
                 example_env (june_2 + 800) (example_response ["a"]);
                 example_env (june_2 + 900) (example_response []);
                 example_env (june_2 + 1000) (example_response [])] m
                (SyncSvc.performManualSync june_1 june_2) in
  (exists res, snd r = Ret res /\ success res = true /\ recordsAdded res = Some 1%nat) /\
  lastSyncResult (this_ (fst r)) = None.
Proof.
  cbv zeta. split; [eexists; repeat split; reflexivity | reflexivity].
Qed.

(** ** The running flag *)

(** An auto sync that finds the flag set returns at once, touches neither
    the network nor [lastSyncResult], and leaves through the [finally]
    block, which clears the flag. *)
Lemma performSync_while_running (e : Env) (m : Machine) :
  isRunning (this_ m) = true ->
  run_sync e m SyncSvc.performSync
  = ({| this_ := {| attendanceService := attendanceService (this_ m);
                    isRunning := false;
                    lastSyncResult := lastSyncResult (this_ m) |};
        sheet := sheet m;
        calls := calls m |},
     Ret {| success := false;
            message := "Sync already in progress";
            error := None;
            recordsFetched := None;
            recordsAdded := None;
            timestamp := now e;
            duration := None |}).
Proof.
  intros Hrun. unfold SyncSvc.performSync. cbn. rewrite Hrun. reflexivity.
Qed.

(** Of two overlapping auto syncs on an idle service the first passes the
    guard and sends the one request; the second is turned away. *)
Lemma second_auto_sync_is_rejected (e0 e1 : Env) (m : Machine) :
  isRunning (this_ m) = false ->
  let st := turns [Invoke Auto e0; Invoke Auto e1] (m, []) in
  exists p res,
    snd st = [p; Ret (inl res)] /\ pending p = true /\
    success res = false /\ message res = "Sync already in progress" /\
    calls (fst st)
    = (calls m ++ [year_query (attendanceService (this_ m)) (fullYear e0) "sync_time"])%list.
Proof.
  intros Hidle. cbv zeta. unfold turns, turn, entry_point, SyncSvc.performSync.
  cbn. rewrite Hidle. cbn.
  eexists. eexists. repeat split; reflexivity.
Qed.

(** C3.  One auto sync is in flight, waiting for the log API.  A second
    auto sync arrives, is turned away, and on its way out clears the
    running flag although the first is still in flight (a manual sync that
    is turned away does the same).  A third auto sync then passes the guard
    and sends its own request: two attempts execute at the same time. *)
Theorem rejected_sync_clears_running_flag :
  let m := example_machine None false [header_row] in
  let e t := example_env t (example_response []) in
  let one := turns [Invoke Auto (e june_2)] (m, []) in
  let two := turns [Invoke Auto (e june_2); Invoke Auto (e (june_2 + 5)%Z)] (m, []) in
  let two' := turns [Invoke Auto (e june_2);
                     Invoke (Manual june_1 june_2) (e (june_2 + 5)%Z)] (m, []) in
  let three := turns [Invoke Auto (e june_2); Invoke Auto (e (june_2 + 5)%Z);
                      Invoke Auto (e (june_2 + 10)%Z)] (m, []) in
  (isRunning (this_ (fst one)) = true /\ map pending (snd one) = [true]) /\
  (isRunning (this_ (fst two)) = false /\ map pending (snd two) = [true; false]) /\
  (isRunning (this_ (fst two')) = false /\ map pending (snd two') = [true; false]) /\
  (map pending (snd three) = [true; false; true] /\
   length (calls (fst three)) = 2%nat).
Proof. cbv zeta. repeat split; reflexivity. Qed.

(** C8, as the code has it.  Turned away by the running flag, an auto sync
    returns a result with [success = false], the message "Sync already in
    progress" and no error classification, without calling the network and
    without touching [lastSyncResult]; a manual sync returns a result with
    [success = false], the message of the error it raised and the
    classification "Error". *)
Theorem rejection_results (e : Env) (m : Machine) (startDate endDate : Z) :
  isRunning (this_ m) = true ->
  let auto := run_sync e m SyncSvc.performSync in
  let manual := run_sync e m (SyncSvc.performManualSync startDate endDate) in
  (exists res, snd auto = Ret res /\ success res = false /\
     message res = "Sync already in progress" /\ error res = None) /\
  (exists res, snd manual = Ret res /\ success res = false /\
     message res = "Another sync operation is already running" /\
     error res = Some "Error") /\
  calls (fst auto) = calls m /\ calls (fst manual) = calls m /\
  lastSyncResult (this_ (fst auto)) = lastSyncResult (this_ m) /\
  lastSyncResult (this_ (fst manual)) = lastSyncResult (this_ m).
Proof.
  intros Hrun. cbv zeta.
  rewrite performSync_while_running by exact Hrun.
  unfold SyncSvc.performManualSync. cbn. rewrite Hrun. cbn.
  split; [eexists; repeat split; reflexivity|].
  split; [eexists; repeat split; reflexivity|].
  repeat split; reflexivity.
Qed.

Lemma rejection_results_witness :
  let m := example_machine (Some june_1) true [header_row] in
  let e := example_env june_2 (example_response []) in
  isRunning (this_ m) = true /\
  (exists res, snd (run_sync e m SyncSvc.performSync) = Ret res /\
     success res = false /\ message res = "Sync already in progress" /\
     error res = None).
Proof.
  cbv zeta. split; [reflexivity|].
  apply (rejection_results (example_env june_2 (example_response []))
           (example_machine (Some june_1) true [header_row]) june_1 june_2).
  reflexivity.
Defined.

(** C8, counterexample.  The result an auto sync returns while another sync
    is running has [success = false]: it is shaped as a failure. *)
Lemma skipped_auto_sync_reports_failure :
  exists res,
    snd (run_sync (example_env june_2 (example_response []))
                  (example_machine (Some june_1) true [header_row])
                  SyncSvc.performSync) = Ret res /\
    success res = false.
Proof. eexists. split; reflexivity. Qed.

(** ** The sheet *)

(** C4.  The sheet already holds uid "a" and the log API sends "a" again.
    When the sheet can be read nothing is appended.  When the read of the
    uid column fails, the failure is answered with the empty list, "a" is
    appended a second time, and the attempt reports success with one record
    added. *)
Theorem failed_uid_read_appends_duplicate :
  let m := example_machine (Some june_1) false
             [header_row; GoogleSheetsSvc.row_of (example_record "a")] in
  let e t := example_env t (example_response ["a"]) in
  let good := call [e june_2; e (june_2 + 800)%Z; e (june_2 + 900)%Z; e (june_2 + 1000)%Z]
                   m SyncSvc.performSync in
  let bad := call [e june_2; e (june_2 + 800)%Z; failing_read_env (june_2 + 900);
                   e (june_2 + 1000)%Z] m SyncSvc.performSync in
  ((exists res, snd good = Ret res /\ success res = true /\
                recordsAdded res = Some 0%nat) /\
   sheet_uids (sheet (fst good)) = [Some "a"]) /\
  ((exists res, snd bad = Ret res /\ success res = true /\
                recordsAdded res = Some 1%nat) /\
   sheet_uids (sheet (fst bad)) = [Some "a"; Some "a"]).
Proof.
  cbv zeta. split; (split; [eexists; repeat split; reflexivity | reflexivity]).
Qed.

(** ** The read-only query *)

(** [fetchAttendanceData] sends one request to the log API and never calls
    the sheet; it leaves the running flag and [lastSyncResult] alone. *)
Lemma fetchAttendanceData_frame (e0 e1 : Env) (es : list Env) (m : Machine) (f : Filters) :
  let r := call (e0 :: e1 :: es) m (SyncSvc.fetchAttendanceData f) in
  (exists res, snd r = Ret res) /\
  sheet (fst r) = sheet m /\
  calls (fst r)
  = (calls m ++ [year_query (attendanceService (this_ m)) (fullYear e0) "sync_time"])%list /\
  isRunning (this_ (fst r)) = isRunning (this_ m) /\
  lastSyncResult (this_ (fst r)) = lastSyncResult (this_ m).
Proof.
  cbv zeta. unfold call, SyncSvc.fetchAttendanceData.
  crunch; settle; (split; [eexists; reflexivity | repeat split; reflexivity]).
Qed.

(** C5.  A query for the first of May, made on 2 June while the watermark
    stands at 1 June, appends nothing and calls the sheet not at all, but
    moves the watermark to 2 June: it fetches through
    [getRecentAttendanceData]. *)
Theorem fetchAttendanceData_advances_watermark :
  let m := example_machine (Some june_1) false [header_row] in
  let f := {| startTime := Some "2024-05-01T00:00:00";
              endTime := Some "2024-05-02T00:00:00";
              other_filters := [] |} in
  let r := call [example_env june_2 (example_response []);
                 example_env (june_2 + 800) (example_response ["a"])] m
                (SyncSvc.fetchAttendanceData f) in
  (exists res, snd r = Ret res /\ fetch_success res = true /\
               fetch_recordsFetched res = 1%nat) /\
  sheet (fst r) = sheet m /\
  length (calls (fst r)) = 1%nat /\
  lastSyncTime (attendanceService (this_ m)) = Some june_1 /\
  lastSyncTime (attendanceService (this_ (fst r))) = Some june_2.
Proof.
  cbv zeta. split; [eexists; repeat split; reflexivity | repeat split; reflexivity].
Qed.

(** ** Appending without duplicates *)

(** What [getExistingUIDs] computes from a successful read of column A. *)
Lemma existing_uids_of_column (s : list Row) :
  (if (1 <? length (column_A s))%nat
   then filter truthy (map (fun row => hd None row) (skipn 1 (column_A s)))
   else []) = sheet_uids s.
Proof.
  unfold sheet_uids, column_A.
  destruct s as [|h t]; [reflexivity|].
  cbn [map length skipn].
  assert (map (fun row : list (option string) => hd None row) (map (firstn 1) t)
          = map (fun row : Row => hd None row) t) as ->.
  { rewrite map_map. apply map_ext. intros [|c row]; reflexivity. }
  destruct t as [|r t]; reflexivity.
Qed.

Lemma appendAttendanceData_run (e0 e1 e2 : Env) (m : Machine) (R : list AttendanceRecord) :
  valuesGetError e1 = None -> valuesAppendError e2 = None ->
  let r := call [e0; e1; e2] m (GoogleSheetsSvc.appendAttendanceData R) in
  sheet (fst r) = (sheet m ++ map GoogleSheetsSvc.row_of (new_records m R))%list /\
  snd r = Ret (if (length (new_records m R) =? 0)%nat then None
               else Some (length (new_records m R))) /\
  calls (fst r)
  = (calls m ++
     match R with
     | [] => []
     | _ => CallValuesGet "A:A" ::
            (if (length (new_records m R) =? 0)%nat then []
             else [CallValuesAppend "A:M"
                     (map GoogleSheetsSvc.row_of (new_records m R))])
     end)%list.
Proof.
  intros Hget Happ. cbv zeta.
  unfold call, GoogleSheetsSvc.appendAttendanceData, GoogleSheetsSvc.getExistingUIDs.
  destruct R as [|a R].
  - cbn. rewrite !app_nil_r. repeat split; reflexivity.
  - cbn -[column_A Nat.ltb skipn filter includes map]. rewrite Hget.
    cbn -[column_A Nat.ltb skipn filter includes map].
    pose proof (existing_uids_of_column (sheet m)) as HA.
    unfold new_records. rewrite <- HA. clear HA.
    destruct (1 <? length (column_A (sheet m)))%nat;
      cbn -[column_A skipn filter includes map].
    all: match goal with
         | |- context [filter ?f (?x :: ?l)] => destruct (filter f (x :: l)) as [|n new]
         end; cbn -[column_A skipn filter includes map].
    all: rewrite ?Happ; cbn -[column_A skipn filter includes map];
      rewrite ?app_nil_r, <- ?app_assoc; repeat split; reflexivity.
Qed.

Lemma sheet_uids_app (h : Row) (t : list Row) (new : list AttendanceRecord) :
  sheet_uids ((h :: t) ++ map GoogleSheetsSvc.row_of new)
  = (sheet_uids (h :: t) ++ filter truthy (map uid new))%list.
Proof.
  unfold sheet_uids. cbn [app skipn].
  rewrite map_app, filter_app, map_map. reflexivity.
Qed.

Lemma filter_all_true {A : Type} (f : A -> bool) (l : list A) :
  Forall (fun x => f x = true) l -> filter f l = l.
Proof.
  induction 1 as [|x l Hx _ IH]; cbn; [reflexivity|].
  rewrite Hx, IH. reflexivity.
Qed.

Lemma NoDup_map_filter {A B : Type} (g : A -> B) (f : A -> bool) (l : list A) :
  NoDup (map g l) -> NoDup (map g (filter f l)).
Proof.
  induction l as [|x l IH]; cbn; intros H; [constructor|].
  inversion H as [|? ? Hnotin Hnd]; subst.
  destruct (f x); cbn; [constructor|]; auto.
  intros Hin. apply Hnotin. apply in_map_iff in Hin as (y & Hy & Hin).
  apply filter_In in Hin as [Hin _]. apply in_map_iff. exists y. auto.
Qed.

Lemma append_step (e0 e1 e2 : Env) (m : Machine) (R : list AttendanceRecord) :
  valuesGetError e1 = None -> valuesAppendError e2 = None ->
  sheet m <> [] ->
  NoDup (sheet_uids (sheet m)) ->
  Forall has_uid R ->
  NoDup (map uid R) ->
  let m' := fst (call [e0; e1; e2] m (GoogleSheetsSvc.appendAttendanceData R)) in
  sheet m' <> [] /\
  NoDup (sheet_uids (sheet m')) /\
  (forall u, In u (sheet_uids (sheet m')) <->
             In u (sheet_uids (sheet m)) \/ In u (map uid R)).
Proof.
  intros Hget Happ Hne Hnd Huid HndR. cbv zeta.
  destruct (appendAttendanceData_run e0 e1 e2 m R Hget Happ) as (Hsheet & _ & _).
  rewrite Hsheet. clear Hsheet.
  destruct (sheet m) as [|h t] eqn:Hs; [congruence|].
  split; [discriminate|].
  rewrite sheet_uids_app.
  assert (Forall has_uid (new_records m R)) as Hnew.
  { unfold new_records. apply Forall_forall. intros r Hr.
    apply filter_In in Hr as [Hr _]. rewrite Forall_forall in Huid. auto. }
  assert (filter truthy (map uid (new_records m R)) = map uid (new_records m R)) as ->.
  { apply filter_all_true. apply Forall_map. exact Hnew. }
  assert (forall u, In u (map uid (new_records m R)) <->
                    In u (map uid R) /\ ~ In u (sheet_uids (h :: t))) as Hmem.
  { intros u. unfold new_records. rewrite Hs. rewrite !in_map_iff. split.
    - intros (r & <- & Hr). apply filter_In in Hr as [Hr Hnot].
      split; [exists r; auto|].
      intros Hin. apply includes_In in Hin. rewrite Hin in Hnot. discriminate.
    - intros ((r & <- & Hr) & Hnot). exists r. split; [reflexivity|].
      apply filter_In. split; [exact Hr|].
      destruct (includes (sheet_uids (h :: t)) (uid r)) eqn:Hinc; [|reflexivity].
      apply includes_In in Hinc. contradiction. }
  split.
  - apply NoDup_app.
    + exact Hnd.
    + unfold new_records. apply NoDup_map_filter. exact HndR.
    + intros u Hu Hu'. apply Hmem in Hu' as [_ Hnot]. contradiction.
  - intros u. rewrite in_app_iff, Hmem. split.
    + intros [H | [H _]]; auto.
    + intros [H | H]; [auto|].
      destruct (includes (sheet_uids (h :: t)) u) eqn:Hinc.
      * apply includes_In in Hinc. auto.
      * right. split; [exact H|]. intros Hin. apply includes_In in Hin. congruence.
Qed.


(** When every record of a batch is already in the sheet, nothing is
    written: the method resolves to [undefined] after the read. *)
Lemma appendAttendanceData_nothing_new
  (e0 e1 e2 : Env) (m : Machine) (R : list AttendanceRecord) :
  valuesGetError e1 = None ->
  new_records m R = [] ->
  let r := call [e0; e1; e2] m (GoogleSheetsSvc.appendAttendanceData R) in
  snd r = Ret None /\
  sheet (fst r) = sheet m /\
  calls (fst r)
  = (calls m ++ match R with [] => [] | _ => [CallValuesGet "A:A"] end)%list.
Proof.
  intros Hget Hnew. cbv zeta.
  unfold call, GoogleSheetsSvc.appendAttendanceData, GoogleSheetsSvc.getExistingUIDs.
  destruct R as [|a R].
  - cbn. rewrite app_nil_r. repeat split; reflexivity.
  - cbn -[column_A Nat.ltb skipn filter includes map]. rewrite Hget.
    cbn -[column_A Nat.ltb skipn filter includes map].
    pose proof (existing_uids_of_column (sheet m)) as HA.
    unfold new_records in Hnew. rewrite <- HA in Hnew. clear HA.
    destruct (1 <? length (column_A (sheet m)))%nat;
      cbn -[column_A skipn filter includes map];
      rewrite Hnew; cbn; repeat split; reflexivity.
Qed.

(** C6, as the code has it.  Starting from a sheet with a header row and no
    repeated uid, appending a batch [R1] and then a batch [R2], each without
    a repeated uid and with every uid set (in particular with [R2] holding
    all of [R1]), with the sheet answering every call: the data rows hold no
    uid twice, and they hold exactly the uids that were there or are in
    [R1] or [R2].  And when every record of a batch is already in the sheet,
    the method issues no append call, leaves the sheet as it is and resolves
    to [undefined] (which the orchestrator reports as zero records added). *)
Theorem appendAttendanceData_idempotent
  (a0 a1 a2 b0 b1 b2 : Env) (m : Machine) (R1 R2 : list AttendanceRecord) :
  valuesGetError a1 = None -> valuesAppendError a2 = None ->
  valuesGetError b1 = None -> valuesAppendError b2 = None ->
  sheet m <> [] ->
  NoDup (sheet_uids (sheet m)) ->
  Forall has_uid R1 -> NoDup (map uid R1) ->
  Forall has_uid R2 -> NoDup (map uid R2) ->
  let m1 := fst (call [a0; a1; a2] m (GoogleSheetsSvc.appendAttendanceData R1)) in
  let m2 := fst (call [b0; b1; b2] m1 (GoogleSheetsSvc.appendAttendanceData R2)) in
  (NoDup (sheet_uids (sheet m2)) /\
   forall u, In u (sheet_uids (sheet m2)) <->
             In u (sheet_uids (sheet m)) \/ In u (map uid R1) \/ In u (map uid R2)) /\
  (forall (e0 e1 e2 : Env) (R : list AttendanceRecord),
     valuesGetError e1 = None ->
     (forall r, In r R -> In (uid r) (sheet_uids (sheet m))) ->
     let r := call [e0; e1; e2] m (GoogleSheetsSvc.appendAttendanceData R) in
     snd r = Ret None /\
     sheet (fst r) = sheet m /\
     calls (fst r)
     = (calls m ++ match R with [] => [] | _ => [CallValuesGet "A:A"] end)%list).
Proof.
  intros Ha1 Ha2 Hb1 Hb2 Hne Hnd H1 Hnd1 H2 Hnd2. cbv zeta. split.
  - destruct (append_step a0 a1 a2 m R1 Ha1 Ha2 Hne Hnd H1 Hnd1) as (Hne1 & Hnd' & Hmem1).
    destruct (append_step b0 b1 b2 _ R2 Hb1 Hb2 Hne1 Hnd' H2 Hnd2) as (_ & Hnd'' & Hmem2).
    split; [exact Hnd''|].
    intros u. rewrite Hmem2, Hmem1. tauto.
  - intros e0 e1 e2 R Hget Hall.
    apply appendAttendanceData_nothing_new; [exact Hget|].
    unfold new_records.
    induction R as [|r R IH]; [reflexivity|]. cbn [filter].
    assert (includes (sheet_uids (sheet m)) (uid r) = true) as ->
      by (apply includes_In, Hall; left; reflexivity).
    cbn [negb]. apply IH. intros r' Hr'. apply Hall. right. exact Hr'.
Qed.

Lemma appendAttendanceData_idempotent_witness :
  let e := example_env june_2 (example_response []) in
  let m := example_machine None false [header_row] in
  let R1 := AttendanceSvc.processAttendanceRecords
              (map example_record ["a"; "b"]) example_project in
  let R2 := AttendanceSvc.processAttendanceRecords
              (map example_record ["a"; "b"; "c"]) example_project in
  let m1 := fst (call [e; e; e] m (GoogleSheetsSvc.appendAttendanceData R1)) in
  let m2 := fst (call [e; e; e] m1 (GoogleSheetsSvc.appendAttendanceData R2)) in
  sheet_uids (sheet m2) = [Some "a"; Some "b"; Some "c"] /\
  NoDup (sheet_uids (sheet m2)).
Proof.
  cbv zeta. split; [reflexivity|].
  apply (appendAttendanceData_idempotent
           (example_env june_2 (example_response []))
           (example_env june_2 (example_response []))
           (example_env june_2 (example_response []))
           (example_env june_2 (example_response []))
           (example_env june_2 (example_response []))
           (example_env june_2 (example_response []))
           (example_machine None false [header_row])
           (AttendanceSvc.processAttendanceRecords
              (map example_record ["a"; "b"]) example_project)
           (AttendanceSvc.processAttendanceRecords
              (map example_record ["a"; "b"; "c"]) example_project));
    try reflexivity; try discriminate;
    cbn; repeat constructor; cbn; intuition discriminate.
Defined.

(** C6, counterexample.  The sheet holds "a" and the batch is "a" alone: the
    difference is empty and the method resolves to [undefined], not to 0. *)
Lemma appendAttendanceData_returns_undefined :
  let e := example_env june_2 (example_response []) in
  let m := example_machine None false
             [header_row; GoogleSheetsSvc.row_of (example_record "a")] in
  let r := call [e; e; e] m
             (GoogleSheetsSvc.appendAttendanceData
                (AttendanceSvc.processAttendanceRecords
                   [example_record "a"] example_project)) in
  snd r = Ret None /\ snd r <> Ret (Some 0%nat).
Proof.
  cbv zeta. split; [reflexivity | discriminate].
Qed.

(** * Further properties of the services *)

(** ** Normalisation *)

Lemma processed_is_valid (rs : list AttendanceRecord) (p : Project) (o : AttendanceRecord) :
  In o (AttendanceSvc.processAttendanceRecords rs p) ->
  AttendanceSvc.validateAttendanceRecord o = true.
Proof.
  unfold AttendanceSvc.processAttendanceRecords. rewrite in_map_iff.
  intros (r & <- & Hr). apply filter_In in Hr as [_ Hv]. exact Hv.
Qed.

Lemma or_else_idem (v : option string) : or_else (Some (or_else v "")) "" = or_else v "".
Proof.
  rewrite !or_else_default. reflexivity.
Qed.

(** X1.  Normalising an already normalised batch changes nothing but the
    project attached: no record is dropped and no field is altered. *)
Theorem processAttendanceRecords_idempotent
  (rs : list AttendanceRecord) (p q : Project) :
  AttendanceSvc.processAttendanceRecords (AttendanceSvc.processAttendanceRecords rs p) q
  = AttendanceSvc.processAttendanceRecords rs q.
Proof.
  assert (filter AttendanceSvc.validateAttendanceRecord
            (AttendanceSvc.processAttendanceRecords rs p)
          = AttendanceSvc.processAttendanceRecords rs p) as Hkeep.
  { apply filter_all_true. apply Forall_forall. apply processed_is_valid. }
  unfold AttendanceSvc.processAttendanceRecords at 1. rewrite Hkeep.
  unfold AttendanceSvc.processAttendanceRecords. rewrite map_map.
  apply map_ext. intros r. cbn. rewrite !or_else_idem. reflexivity.
Qed.

Lemma processed_has_uid (rs : list AttendanceRecord) (p : Project) (o : AttendanceRecord) :
  In o (AttendanceSvc.processAttendanceRecords rs p) -> has_uid o.
Proof.
  intros Hin. pose proof (processed_is_valid rs p o Hin) as Hv.
  apply validateAttendanceRecord_valid in Hv. destruct Hv as (Hu & _).
  apply truthy_present. exact Hu.
Qed.

(** X2.  The sheet row of a normalised record has one cell per header
    column, the uid in column A, and no cell left undefined. *)
Theorem processed_rows_are_complete
  (rs : list AttendanceRecord) (p : Project) (o : AttendanceRecord) :
  In o (AttendanceSvc.processAttendanceRecords rs p) ->
  has_uid o /\
  length (GoogleSheetsSvc.row_of o) = length GoogleSheetsSvc.headers /\
  hd None (GoogleSheetsSvc.row_of o) = uid o /\
  Forall (fun c : Cell => c <> None) (GoogleSheetsSvc.row_of o).
Proof.
  intros Hin. pose proof (processed_is_valid rs p o Hin) as Hv.
  apply validateAttendanceRecord_valid in Hv.
  destruct Hv as ((u & Hu & Hune) & (st & Hst & _) & (lt & Hlt & _) & (ty & Hty & _)
                  & (d & Hd & _) & (pe & Hpe & _) & _).
  unfold AttendanceSvc.processAttendanceRecords in Hin. apply in_map_iff in Hin.
  destruct Hin as (r & <- & _). cbn in *.
  split.
  - unfold has_uid. cbn. rewrite Hu. cbn. apply negb_true_iff, String.eqb_neq. exact Hune.
  - split; [reflexivity|]. split; [reflexivity|].
    unfold GoogleSheetsSvc.row_of; cbn. rewrite Hu, Hst, Hlt, Hty, Hd, Hpe.
    repeat constructor; discriminate.
Qed.

Lemma processed_rows_are_complete_witness :
  hd None (GoogleSheetsSvc.row_of
             {| uid := Some "a";
                sync_time := Some "2024-06-01 08:00:05";
                logged_time := Some "2024-06-01 08:00:00";
                type := Some "card";
                device_identifier := Some "gate-1";
                person_identifier := Some "emp-17";
                rfid := Some "";
                location := Some "";
                primary_display_text := Some "";
                secondary_display_text := Some "";
                project := Some example_project |}) = Some "a".
Proof.
  apply (processed_rows_are_complete [example_record "a"] example_project).
  left. reflexivity.
Defined.

Lemma process_length_le (rs : list AttendanceRecord) (p : Project) :
  (length (AttendanceSvc.processAttendanceRecords rs p) <= length rs)%nat.
Proof.
  unfold AttendanceSvc.processAttendanceRecords. rewrite length_map.
  apply filter_length_le.
Qed.

(** X3.  Normalisation never returns more records than it was given, and
    returns as many exactly when every record is valid (the case in which
    the source logs no warning about filtered records). *)
Theorem processAttendanceRecords_length (rs : list AttendanceRecord) (p : Project) :
  (length (AttendanceSvc.processAttendanceRecords rs p) <= length rs)%nat /\
  (length (AttendanceSvc.processAttendanceRecords rs p) = length rs <->
   Forall valid_record rs).
Proof.
  unfold AttendanceSvc.processAttendanceRecords. rewrite length_map.
  induction rs as [|r rs [IHle IHeq]]; cbn.
  - split; [lia|]. split; [constructor | reflexivity].
  - destruct (AttendanceSvc.validateAttendanceRecord r) eqn:Hv; cbn.
    + split; [lia|]. split.
      * intros H. constructor; [apply validateAttendanceRecord_valid, Hv|].
        apply IHeq. lia.
      * intros H. inversion H; subst. f_equal. apply IHeq. assumption.
    + split; [lia|]. split; [lia|].
      intros H. inversion H as [|? ? Hr _]; subst.
      apply validateAttendanceRecord_valid in Hr. congruence.
Qed.

(** ** Date formatting *)
Lemma replace_first_skip (c : ascii) (by_ d rest : string) :
  (forall x, In x (list_ascii_of_string d) -> x <> c) ->
  AttendanceSvc.replace_first c by_ (d ++ String c rest) = d ++ by_ ++ rest.
Proof.
  induction d as [|x d IH]; cbn; intros H.
  - rewrite Ascii.eqb_refl. reflexivity.
  - destruct (Ascii.eqb_spec x c) as [->|_].
    + exfalso. apply (H c); auto.
    + f_equal. apply IH. intros y Hy. apply H. auto.
Qed.

Lemma substring_prefix (a b : string) :
  substring 0 (String.length a) (a ++ b) = a.
Proof.
  induction a as [|x a IH]; cbn.
  - destruct b; reflexivity.
  - f_equal. exact IH.
Qed.

Lemma string_app_assoc (a b c : string) : (a ++ b) ++ c = a ++ b ++ c.
Proof. induction a as [|x a IH]; cbn; [reflexivity | f_equal; exact IH]. Qed.

Lemma string_length_app (a b : string) :
  String.length (a ++ b) = (String.length a + String.length b)%nat.
Proof. induction a as [|x a IH]; cbn; [reflexivity | f_equal; exact IH]. Qed.

(** X4.  Applied to an ISO timestamp (a ten-character date, the letter T,
    an eight-character time, then fractions and zone), [formatDateTime]
    returns the date, a space and the time, cut after the seconds. *)
Theorem formatDateTime_iso (date time rest : string) :
  String.length date = 10%nat ->
  String.length time = 8%nat ->
  (forall x, In x (list_ascii_of_string date) -> x <> "T"%char) ->
  AttendanceSvc.formatDateTime (date ++ "T" ++ time ++ rest) = date ++ " " ++ time.
Proof.
  intros Hd Ht Hno. unfold AttendanceSvc.formatDateTime.
  replace (date ++ "T" ++ time ++ rest) with ((date ++ "T" ++ time) ++ rest).
  2:{ rewrite !string_app_assoc. reflexivity. }
  replace 19%nat with (String.length (date ++ "T" ++ time)).
  2:{ rewrite !string_length_app, Hd, Ht. reflexivity. }
  rewrite substring_prefix.
  change ("T" ++ time) with (String "T"%char time).
  rewrite replace_first_skip by exact Hno. reflexivity.
Qed.

Lemma formatDateTime_iso_witness :
  AttendanceSvc.formatDateTime "2024-06-01T08:00:05.123Z" = "2024-06-01 08:00:05".
Proof.
  apply (formatDateTime_iso "2024-06-01" "08:00:05" ".123Z"); try reflexivity.
  cbn. intros x H. repeat (destruct H as [<- | H]; [discriminate|]). destruct H.
Defined.

(** ** Whole runs of an auto sync *)

(** An auto sync that nothing refuses: the rows written and the result. *)
Lemma performSync_run (e0 e1 e2 e3 : Env) (es : list Env) (m : Machine) (resp : AxiosResponse) :
  isRunning (this_ m) = false ->
  upstream e1 = inr resp ->
  status resp = 200%Z ->
  valuesGetError e2 = None ->
  valuesAppendError e3 = None ->
  let r := call (e0 :: e1 :: e2 :: e3 :: es) m SyncSvc.performSync in
  sheet (fst r)
  = (sheet m ++ map GoogleSheetsSvc.row_of (new_records m (batch_of resp)))%list /\
  exists res,
    snd r = Ret res /\ lastSyncResult (this_ (fst r)) = Some res /\
    success res = true /\
    recordsFetched res = Some (raw_count resp) /\
    recordsAdded res = Some (length (new_records m (batch_of resp))).
Proof.
  intros Hidle Hup Hst Hget Happ. cbv zeta.
  unfold batch_of, raw_count, new_records.
  rewrite <- (existing_uids_of_column (sheet m)).
  unfold call, SyncSvc.performSync.
  crunch_with ltac:(rewrite ?Hidle, ?Hup, ?Hst, ?Hget, ?Happ).
  all: rewrite ?resume_all_settled by reflexivity; quiet; empty_lists; quiet;
    rewrite ?app_nil_r.
  all: try (split; [reflexivity | eexists; repeat split; reflexivity]).
Qed.

(** ** After an attempt *)

Lemma performSync_clears_flag (e0 e1 e2 e3 : Env) (es : list Env) (m : Machine) :
  isRunning (this_ (fst (call (e0 :: e1 :: e2 :: e3 :: es) m SyncSvc.performSync)))
  = false.
Proof.
  unfold call, SyncSvc.performSync. crunch; settle; reflexivity.
Qed.

(** X11.  However an auto or a manual sync ends (success, failure of the log
    API, failure of the sheet, rejection), the running flag is clear when it
    has settled. *)
Theorem running_flag_cleared_on_completion
  (e0 e1 e2 e3 : Env) (es : list Env) (m : Machine) (startDate endDate : Z) :
  isRunning (this_ (fst (call (e0 :: e1 :: e2 :: e3 :: es) m SyncSvc.performSync)))
  = false /\
  isRunning (this_ (fst (call (e0 :: e1 :: e2 :: e3 :: es) m
                              (SyncSvc.performManualSync startDate endDate))))
  = false.
Proof.
  split.
  - apply performSync_clears_flag.
  - unfold call, SyncSvc.performManualSync. crunch; settle; reflexivity.
Qed.

(** X12.  A manual sync never changes the watermark, whatever the log API
    and the sheet answer. *)
Theorem manual_sync_keeps_watermark
  (e0 e1 e2 e3 : Env) (es : list Env) (m : Machine) (startDate endDate : Z) :
  let r := call (e0 :: e1 :: e2 :: e3 :: es) m
                (SyncSvc.performManualSync startDate endDate) in
  lastSyncTime (attendanceService (this_ (fst r)))
  = lastSyncTime (attendanceService (this_ m)).
Proof.
  cbv zeta. unfold call, SyncSvc.performManualSync. crunch; settle; reflexivity.
Qed.

(** X13.  After any auto sync the sheet has grown by exactly the number of
    records the result reports as added, and that number never exceeds the
    number reported as fetched. *)
Theorem performSync_counts (e0 e1 e2 e3 : Env) (es : list Env) (m : Machine) :
  let r := call (e0 :: e1 :: e2 :: e3 :: es) m SyncSvc.performSync in
  exists res,
    snd r = Ret res /\
    length (sheet (fst r))
    = (length (sheet m) + SyncSvc.or_zero (recordsAdded res))%nat /\
    (SyncSvc.or_zero (recordsAdded res) <= SyncSvc.or_zero (recordsFetched res))%nat.
Proof.
  cbv zeta. unfold call, SyncSvc.performSync.
  crunch_with idtac.
  all: rewrite ?resume_all_settled by reflexivity; quiet.
  all: eexists; split; [reflexivity|]; quiet.
  all: rewrite ?length_app, ?length_map; split; try lia.
  all: etransitivity; [apply filter_length_le | apply process_length_le].
Qed.

(** ** Failures of the log API *)

(** X5.  How a failed request is reported, in the order the source tests:
    an expired timeout gives the timeout message even when a response is
    attached; otherwise a response gives the status with the message of its
    body, or its status text when the body has none; otherwise the message
    tells whether the request was sent at all. *)
Theorem getAttendanceData_failure_classes
  (e0 e1 : Env) (es : list Env) (m : Machine) (s t : Z) (c : string) (err : JsError) :
  upstream e1 = inl err ->
  let thrown := snd (call (e0 :: e1 :: es) m (AttendanceSvc.getAttendanceData s t c)) in
  (error_code err = Some "ECONNABORTED" ->
   thrown = Throw (new_Error "Request timeout - TIPSOI API took too long to respond")) /\
  (error_code err <> Some "ECONNABORTED" ->
   forall resp, error_response err = Some resp ->
   thrown = Throw (new_Error ("TIPSOI API error (" ++ string_of_Z (error_status resp)
                              ++ "): "
                              ++ (if truthy (error_data_message resp)
                                  then default_empty (error_data_message resp)
                                  else statusText resp)))) /\
  (error_code err <> Some "ECONNABORTED" -> error_response err = None ->
   thrown = Throw (new_Error (if error_request err
                              then "No response from TIPSOI API - network error"
                              else "Request setup error: " ++ error_message err))).
Proof.
  intros Hup. cbv zeta. unfold call, AttendanceSvc.getAttendanceData.
  cbn -[includes]. rewrite Hup. cbn -[includes].
  assert (includes [Some "ECONNABORTED"] (error_code err) = true
          <-> error_code err = Some "ECONNABORTED") as Hcode.
  { rewrite includes_In. cbn. split; [intros [H | []]; auto | auto]. }
  destruct (includes [Some "ECONNABORTED"] (error_code err)) eqn:Hinc.
  - assert (error_code err = Some "ECONNABORTED") as Hc by (apply Hcode; reflexivity).
    cbn. rewrite resume_all_settled by reflexivity. cbn.
    split; [reflexivity|]. split; intros; contradiction.
  - assert (error_code err <> Some "ECONNABORTED") as Hc.
    { intros H. apply Hcode in H. discriminate. }
    split; [intros; contradiction|].
    split.
    + intros _ resp Hresp. rewrite Hresp. cbn.
      rewrite resume_all_settled by reflexivity. cbn.
      unfold or_else. destruct (error_data_message resp); reflexivity.
    + intros _ Hresp. rewrite Hresp.
      destruct (error_request err); cbn;
        rewrite resume_all_settled by reflexivity; reflexivity.
Qed.

Lemma getAttendanceData_failure_classes_witness :
  snd (call [example_env june_2 (example_response []);
             example_env (june_2 + 30000) (inl timeout_error)]
            (example_machine None false [header_row])
            (AttendanceSvc.getAttendanceData june_1 june_2 "sync_time"))
  = Throw (new_Error "Request timeout - TIPSOI API took too long to respond").
Proof.
  apply (getAttendanceData_failure_classes
           (example_env june_2 (example_response []))
           (example_env (june_2 + 30000) (inl timeout_error)) []
           (example_machine None false [header_row]) june_1 june_2 "sync_time"
           timeout_error); reflexivity.
Defined.

(** X6.  A response that arrives with a status other than 200 is thrown
    inside the method's own [try] and so comes out as a request setup
    error naming the status. *)
Theorem getAttendanceData_other_status
  (e0 e1 : Env) (es : list Env) (m : Machine) (s t : Z) (c : string)
  (resp : AxiosResponse) :
  upstream e1 = inr resp ->
  status resp <> 200%Z ->
  snd (call (e0 :: e1 :: es) m (AttendanceSvc.getAttendanceData s t c))
  = Throw (new_Error ("Request setup error: API request failed with status: "
                      ++ string_of_Z (status resp))).
Proof.
  intros Hup Hst. unfold call, AttendanceSvc.getAttendanceData.
  cbn. rewrite Hup. cbn.
  destruct (Z.eqb_spec (status resp) 200) as [|_]; [contradiction|].
  cbn. rewrite resume_all_settled by reflexivity. reflexivity.
Qed.

Lemma getAttendanceData_other_status_witness :
  snd (call [example_env june_2 (example_response []);
             example_env (june_2 + 800)
               (inr {| status := 204;
                       response_data := mkBody None None None None |})]
            (example_machine None false [header_row])
            (AttendanceSvc.getAttendanceData june_1 june_2 "sync_time"))
  = Throw (new_Error "Request setup error: API request failed with status: 204").
Proof.
  apply (getAttendanceData_other_status
           (example_env june_2 (example_response []))
           (example_env (june_2 + 800)
              (inr {| status := 204;
                      response_data := mkBody None None None None |})) []
           (example_machine None false [header_row]) june_1 june_2 "sync_time"
           {| status := 204; response_data := mkBody None None None None |});
    [reflexivity | discriminate].
Defined.

(** X7.  When the request to the log API fails, an auto sync never calls the
    sheet; it stores and returns a result with [success = false], the
    classification "Error" and zero counts, with the timeout message when
    the timeout expired. *)
Theorem performSync_upstream_failure
  (e0 e1 e2 e3 : Env) (es : list Env) (m : Machine) (err : JsError) :
  isRunning (this_ m) = false ->
  upstream e1 = inl err ->
  let r := call (e0 :: e1 :: e2 :: e3 :: es) m SyncSvc.performSync in
  sheet (fst r) = sheet m /\
  calls (fst r)
  = (calls m ++ [year_query (attendanceService (this_ m)) (fullYear e0) "sync_time"])%list /\
  exists res,
    snd r = Ret res /\ lastSyncResult (this_ (fst r)) = Some res /\
    success res = false /\ error res = Some "Error" /\
    recordsFetched res = Some 0%nat /\ recordsAdded res = Some 0%nat /\
    (error_code err = Some "ECONNABORTED" ->
     message res = "Request timeout - TIPSOI API took too long to respond").
Proof.
  intros Hidle Hup. cbv zeta. unfold call, SyncSvc.performSync.
  cbn -[includes]. rewrite Hidle. cbn -[includes]. rewrite Hup. cbn -[includes].
  destruct (includes [Some "ECONNABORTED"] (error_code err)) eqn:Hinc.
  - cbn. rewrite resume_all_settled by reflexivity. cbn.
    repeat split. eexists. repeat split; reflexivity.
  - assert (error_code err <> Some "ECONNABORTED") as Hc.
    { intros H. rewrite H in Hinc. discriminate. }
    destruct (error_response err), (error_request err); cbn;
      rewrite resume_all_settled by reflexivity; cbn;
      (repeat split; eexists; repeat split; try reflexivity; intros; contradiction).
Qed.

Lemma performSync_upstream_failure_witness :
  let r := call [example_env june_2 (example_response []);
                 example_env (june_2 + 30000) (inl timeout_error);
                 example_env (june_2 + 30000) (inl timeout_error);
                 example_env (june_2 + 30000) (inl timeout_error)]
                (example_machine (Some june_1) false [header_row])
                SyncSvc.performSync in
  sheet (fst r) = [header_row].
Proof.
  cbv zeta.
  apply (performSync_upstream_failure
           (example_env june_2 (example_response []))
           (example_env (june_2 + 30000) (inl timeout_error))
           (example_env (june_2 + 30000) (inl timeout_error))
           (example_env (june_2 + 30000) (inl timeout_error)) []
           (example_machine (Some june_1) false [header_row]) timeout_error);
    reflexivity.
Defined.

(** ** Batches with nothing to write *)

(** X8.  An auto sync whose batch is empty after normalisation succeeds
    without calling the sheet: it reports the raw count as fetched, zero as
    added, and "No new records" or "No valid records to sync" according to
    whether the log API sent any record at all. *)
Theorem performSync_nothing_to_write
  (e0 e1 e2 e3 : Env) (es : list Env) (m : Machine) (resp : AxiosResponse) :
  isRunning (this_ m) = false ->
  upstream e1 = inr resp ->
  status resp = 200%Z ->
  batch_of resp = [] ->
  let r := call (e0 :: e1 :: e2 :: e3 :: es) m SyncSvc.performSync in
  sheet (fst r) = sheet m /\
  calls (fst r)
  = (calls m ++ [year_query (attendanceService (this_ m)) (fullYear e0) "sync_time"])%list /\
  exists res,
    snd r = Ret res /\ lastSyncResult (this_ (fst r)) = Some res /\
    success res = true /\
    recordsFetched res = Some (raw_count resp) /\ recordsAdded res = Some 0%nat /\
    message res = if (raw_count resp =? 0)%nat then "No new records"
                  else "No valid records to sync".
Proof.
  intros Hidle Hup Hst Hbatch. cbv zeta.
  unfold batch_of, raw_count in *.
  unfold call, SyncSvc.performSync.
  crunch_with ltac:(rewrite ?Hidle, ?Hup, ?Hst, ?Hbatch).
  all: rewrite ?resume_all_settled by reflexivity; quiet; empty_lists; quiet.
  all: try (repeat split; eexists; repeat split; reflexivity).
  all: cbn in *; discriminate.
Qed.

Lemma performSync_nothing_to_write_witness :
  let r := call [example_env june_2 (example_response []);
                 example_env (june_2 + 800) (inr (response_with [record_without_person]));
                 example_env (june_2 + 900) (example_response []);
                 example_env (june_2 + 1000) (example_response [])]
                (example_machine None false [header_row]) SyncSvc.performSync in
  sheet (fst r) = [header_row].
Proof.
  cbv zeta.
  apply (performSync_nothing_to_write
           (example_env june_2 (example_response []))
           (example_env (june_2 + 800) (inr (response_with [record_without_person])))
           (example_env (june_2 + 900) (example_response []))
           (example_env (june_2 + 1000) (example_response [])) []
           (example_machine None false [header_row])
           (response_with [record_without_person])); reflexivity.
Defined.

(** X9.  A manual sync whose batch is empty after normalisation succeeds
    without calling the sheet as well; when records were sent but all were
    invalid it reports "Manual sync completed successfully" with zero
    added. *)
Theorem performManualSync_nothing_to_write
  (e0 e1 e2 e3 : Env) (es : list Env) (m : Machine) (resp : AxiosResponse)
  (startDate endDate : Z) :
  isRunning (this_ m) = false ->
  upstream e1 = inr resp ->
  status resp = 200%Z ->
  batch_of resp = [] ->
  let r := call (e0 :: e1 :: e2 :: e3 :: es) m
                (SyncSvc.performManualSync startDate endDate) in
  sheet (fst r) = sheet m /\
  calls (fst r)
  = (calls m ++ [year_query (attendanceService (this_ m)) (fullYear e0) "sync_time"])%list /\
  exists res,
    snd r = Ret res /\
    success res = true /\
    recordsFetched res = Some (raw_count resp) /\ recordsAdded res = Some 0%nat /\
    message res = if (raw_count resp =? 0)%nat
                  then "No records found in the specified date range"
                  else "Manual sync completed successfully".
Proof.
  intros Hidle Hup Hst Hbatch. cbv zeta.
  unfold batch_of, raw_count in *.
  unfold call, SyncSvc.performManualSync.
  crunch_with ltac:(rewrite ?Hidle, ?Hup, ?Hst, ?Hbatch).
  all: rewrite ?resume_all_settled by reflexivity; quiet; empty_lists; quiet.
  all: try (repeat split; eexists; repeat split; reflexivity).
  all: cbn in *; discriminate.
Qed.

Lemma performManualSync_nothing_to_write_witness :
  let r := call [example_env june_2 (example_response []);
                 example_env (june_2 + 800) (inr (response_with [record_without_person]));
                 example_env (june_2 + 900) (example_response []);
                 example_env (june_2 + 1000) (example_response [])]
                (example_machine None false [header_row])
                (SyncSvc.performManualSync june_1 june_2) in
  sheet (fst r) = [header_row].
Proof.
  cbv zeta.
  apply (performManualSync_nothing_to_write
           (example_env june_2 (example_response []))
           (example_env (june_2 + 800) (inr (response_with [record_without_person])))
           (example_env (june_2 + 900) (example_response []))
           (example_env (june_2 + 1000) (example_response [])) []
           (example_machine None false [header_row])
           (response_with [record_without_person]) june_1 june_2); reflexivity.
Defined.

(** ** A refused append *)

(** X10.  When the sheet refuses the append of new records, the auto sync
    stores and returns a failure that carries the name and message of the
    sheet's own error and reports zero records fetched; the sheet is
    unchanged. *)
Theorem performSync_append_failure
  (e0 e1 e2 e3 : Env) (es : list Env) (m : Machine) (resp : AxiosResponse)
  (err : JsError) :
  isRunning (this_ m) = false ->
  upstream e1 = inr resp ->
  status resp = 200%Z ->
  valuesGetError e2 = None ->
  valuesAppendError e3 = Some err ->
  new_records m (batch_of resp) <> [] ->
  let r := call (e0 :: e1 :: e2 :: e3 :: es) m SyncSvc.performSync in
  sheet (fst r) = sheet m /\
  exists res,
    snd r = Ret res /\ lastSyncResult (this_ (fst r)) = Some res /\
    success res = false /\
    message res = error_message err /\ error res = Some (error_name err) /\
    recordsFetched res = Some 0%nat /\ recordsAdded res = Some 0%nat.
Proof.
  intros Hidle Hup Hst Hget Happ Hnew. cbv zeta.
  unfold batch_of, raw_count, new_records in *.
  rewrite <- (existing_uids_of_column (sheet m)) in Hnew.
  unfold call, SyncSvc.performSync.
  crunch_with ltac:(rewrite ?Hidle, ?Hup, ?Hst, ?Hget, ?Happ).
  all: rewrite ?resume_all_settled by reflexivity; quiet; empty_lists; quiet.
  all: try (split; [reflexivity | eexists; repeat split; reflexivity]).
  all: exfalso; apply Hnew; reflexivity.
Qed.

Lemma performSync_append_failure_witness :
  let r := call [example_env june_2 (example_response []);
                 example_env (june_2 + 800) (example_response ["a"]);
                 example_env (june_2 + 900) (example_response []);
                 failing_append_env (june_2 + 1000)]
                (example_machine None false [header_row]) SyncSvc.performSync in
  sheet (fst r) = [header_row].
Proof.
  cbv zeta.
  apply (performSync_append_failure
           (example_env june_2 (example_response []))
           (example_env (june_2 + 800) (example_response ["a"]))
           (example_env (june_2 + 900) (example_response []))
           (failing_append_env (june_2 + 1000)) []
           (example_machine None false [header_row])
           (response_with [example_record "a"]) store_error);
    try reflexivity.
  discriminate.
Defined.


(** ** A whole sync on a sheet without duplicates *)

Lemma batch_has_uids (resp : AxiosResponse) : Forall has_uid (batch_of resp).
Proof.
  apply Forall_forall. intros o Ho.
  exact (processed_has_uid _ _ o Ho).
Qed.

Lemma new_rows_keep_sheet_duplicate_free (m : Machine) (R : list AttendanceRecord) :
  sheet m <> [] ->
  NoDup (sheet_uids (sheet m)) ->
  Forall has_uid R ->
  NoDup (map uid R) ->
  let rows := (sheet m ++ map GoogleSheetsSvc.row_of (new_records m R))%list in
  NoDup (sheet_uids rows) /\
  (forall u, In u (sheet_uids rows) <-> In u (sheet_uids (sheet m)) \/ In u (map uid R)).
Proof.
  intros Hne Hnd Huid HndR. cbv zeta.
  pose (e := example_env 0 (example_response [])).
  destruct (appendAttendanceData_run e e e m R eq_refl eq_refl) as (Hsheet & _).
  destruct (append_step e e e m R eq_refl eq_refl Hne Hnd Huid HndR) as (_ & H1 & H2).
  rewrite Hsheet in H1, H2. split; assumption.
Qed.

(** X14.  On a sheet with a header row and no repeated uid, an auto sync
    that the log API and the sheet answer, and whose valid records carry
    distinct uids, leaves a sheet with no repeated uid that holds exactly
    the uids it had and those of the valid records. *)
Theorem performSync_keeps_sheet_duplicate_free
  (e0 e1 e2 e3 : Env) (es : list Env) (m : Machine) (resp : AxiosResponse) :
  isRunning (this_ m) = false ->
  upstream e1 = inr resp ->
  status resp = 200%Z ->
  valuesGetError e2 = None ->
  valuesAppendError e3 = None ->
  sheet m <> [] ->
  NoDup (sheet_uids (sheet m)) ->
  NoDup (map uid (batch_of resp)) ->
  let r := call (e0 :: e1 :: e2 :: e3 :: es) m SyncSvc.performSync in
  NoDup (sheet_uids (sheet (fst r))) /\
  (forall u, In u (sheet_uids (sheet (fst r))) <->
             In u (sheet_uids (sheet m)) \/ In u (map uid (batch_of resp))).
Proof.
  intros Hidle Hup Hst Hget Happ Hne Hnd Hbatch. cbv zeta.
  destruct (performSync_run e0 e1 e2 e3 es m resp Hidle Hup Hst Hget Happ) as (-> & _).
  apply new_rows_keep_sheet_duplicate_free; auto using batch_has_uids.
Qed.

Lemma performSync_keeps_sheet_duplicate_free_witness :
  let r := call [example_env june_2 (example_response []);
                 example_env (june_2 + 800) (example_response ["a"; "b"]);
                 example_env (june_2 + 900) (example_response []);
                 example_env (june_2 + 1000) (example_response [])]
                (example_machine None false
                   [header_row; GoogleSheetsSvc.row_of (example_record "a")])
                SyncSvc.performSync in
  NoDup (sheet_uids (sheet (fst r))).
Proof.
  cbv zeta.
  apply (performSync_keeps_sheet_duplicate_free
           (example_env june_2 (example_response []))
           (example_env (june_2 + 800) (example_response ["a"; "b"]))
           (example_env (june_2 + 900) (example_response []))
           (example_env (june_2 + 1000) (example_response [])) []
           (example_machine None false
              [header_row; GoogleSheetsSvc.row_of (example_record "a")])
           (response_with (map example_record ["a"; "b"])));
    try reflexivity; try discriminate;
    cbn; repeat constructor; cbn; intuition discriminate.
Defined.





(** ** The connection test *)

(** X16.  The connection test always resolves, sends one request, and
    changes neither the service object (watermark, running flag, last
    result) nor the sheet; it succeeds exactly on a 200 response and then
    counts the raw records, valid or not. *)
Theorem testConnection_is_read_only (e0 e1 : Env) (es : list Env) (m : Machine) :
  let r := call (e0 :: e1 :: es) m AttendanceSvc.testConnection in
  this_ (fst r) = this_ m /\
  sheet (fst r) = sheet m /\
  calls (fst r)
  = (calls m ++ [year_query (attendanceService (this_ m)) (fullYear e0) "sync_time"])%list /\
  exists t,
    snd r = Ret t /\
    match upstream e1 with
    | inr resp =>
        if (status resp =? 200)%Z
        then AttendanceSvc.test_success t = true /\
             AttendanceSvc.test_message t = "Connection successful" /\
             AttendanceSvc.recordCount t = Some (raw_count resp)
        else AttendanceSvc.test_success t = false
    | inl _ => AttendanceSvc.test_success t = false /\
               AttendanceSvc.recordCount t = None
    end.
Proof.
  cbv zeta. unfold call, AttendanceSvc.testConnection, raw_count.
  crunch; settle; (repeat split; eexists; repeat split; reflexivity).
Qed.

(** ** A sheet without a header row *)

Lemma filter_none_known (R : list AttendanceRecord) :
  filter (fun record => negb (includes [] (uid record))) R = R.
Proof. apply filter_all_true. apply Forall_forall. reflexivity. Qed.

(** X17.  The first row of the sheet is never read as a uid.  On a sheet
    without a header row a batch of two or more records is written from row
    1, and appending the same batch again writes its first record a second
    time. *)
Theorem headerless_sheet_repeats_first_record
  (a0 a1 a2 b0 b1 b2 : Env) (m : Machine) (r : AttendanceRecord)
  (R : list AttendanceRecord) :
  valuesGetError a1 = None -> valuesAppendError a2 = None ->
  valuesGetError b1 = None -> valuesAppendError b2 = None ->
  sheet m = [] ->
  R <> [] ->
  Forall has_uid (r :: R) ->
  NoDup (map uid (r :: R)) ->
  let m1 := fst (call [a0; a1; a2] m (GoogleSheetsSvc.appendAttendanceData (r :: R))) in
  let second := call [b0; b1; b2] m1 (GoogleSheetsSvc.appendAttendanceData (r :: R)) in
  sheet m1 = map GoogleSheetsSvc.row_of (r :: R) /\
  sheet (fst second)
  = (map GoogleSheetsSvc.row_of (r :: R) ++ [GoogleSheetsSvc.row_of r])%list /\
  snd second = Ret (Some 1%nat).
Proof.
  intros Ha1 Ha2 Hb1 Hb2 Hempty HR Huid Hnd. cbv zeta.
  destruct (appendAttendanceData_run a0 a1 a2 m (r :: R) Ha1 Ha2) as (Hs1 & _ & _).
  set (m1 := fst (call [a0; a1; a2] m (GoogleSheetsSvc.appendAttendanceData (r :: R)))) in *.
  assert (new_records m (r :: R) = r :: R) as Hall.
  { unfold new_records. rewrite Hempty. apply filter_none_known. }
  rewrite Hall, Hempty in Hs1. cbn [app] in Hs1.
  destruct (appendAttendanceData_run b0 b1 b2 m1 (r :: R) Hb1 Hb2) as (Hs2 & Hr2 & _).
  assert (sheet_uids (sheet m1) = map uid R) as Huids.
  { rewrite Hs1. unfold sheet_uids. cbn [map skipn]. rewrite map_map.
    apply filter_all_true. apply Forall_map. inversion Huid; assumption. }
  assert (new_records m1 (r :: R) = [r]) as Hnew.
  { unfold new_records. rewrite Huids. inversion Hnd as [|? ? Hnotin HndR]; subst.
    cbn [filter].
    destruct (includes (map uid R) (uid r)) eqn:Hinc.
    - apply includes_In in Hinc. contradiction.
    - cbn [negb]. f_equal.
      assert (forall l, (forall x, In x l -> In x R) ->
                filter (fun record => negb (includes (map uid R) (uid record))) l = [])
        as Hnone.
      { induction l as [|x l IH]; intros Hl; [reflexivity|]. cbn [filter].
        assert (includes (map uid R) (uid x) = true) as ->
          by (apply includes_In, in_map, Hl; left; reflexivity).
        cbn [negb]. apply IH. intros y Hy. apply Hl. right. exact Hy. }
      apply Hnone. auto. }
  rewrite Hnew in Hs2, Hr2. rewrite Hs1 in Hs2.
  repeat split; assumption.
Qed.

Lemma headerless_sheet_repeats_first_record_witness :
  let e := example_env june_2 (example_response []) in
  let batch := AttendanceSvc.processAttendanceRecords
                 (map example_record ["a"; "b"]) example_project in
  let m1 := fst (call [e; e; e] (example_machine None false [])
                      (GoogleSheetsSvc.appendAttendanceData batch)) in
  snd (call [e; e; e] m1 (GoogleSheetsSvc.appendAttendanceData batch))
  = Ret (Some 1%nat).
Proof.
  cbv zeta.
  apply (headerless_sheet_repeats_first_record
           (example_env june_2 (example_response []))
           (example_env june_2 (example_response []))
           (example_env june_2 (example_response []))
           (example_env june_2 (example_response []))
           (example_env june_2 (example_response []))
           (example_env june_2 (example_response []))
           (example_machine None false [])
           {| uid := Some "a";
              sync_time := Some "2024-06-01 08:00:05";
              logged_time := Some "2024-06-01 08:00:00";
              type := Some "card";
              device_identifier := Some "gate-1";
              person_identifier := Some "emp-17";
              rfid := Some "";
              location := Some "";
              primary_display_text := Some "";
              secondary_display_text := Some "";
              project := Some example_project |}
           (AttendanceSvc.processAttendanceRecords
              (map example_record ["b"]) example_project));
    try reflexivity; try discriminate;
    cbn; repeat constructor; cbn; intuition discriminate.
Defined.

(** ** The header row *)

Lemma headers_not_empty (tail : Row) :
  forallb (fun c : Cell => negb (truthy c))
          (firstn 13 (GoogleSheetsSvc.headers ++ tail)) = false.
Proof. reflexivity. Qed.

(** X18.  With the sheet answering, [createHeaderRow] succeeds and leaves a
    sheet with a first row; it never changes a data row or the uids, writes
    nothing when row 1 already holds something, and a second call finds the
    header and needs no write. *)
Theorem createHeaderRow_idempotent (updateError : option JsError) (rows : list Row) :
  let first := GoogleSheetsSvc.createHeaderRow None None rows in
  snd first = inr tt /\
  fst first <> [] /\
  skipn 1 (fst first) = skipn 1 rows /\
  sheet_uids (fst first) = sheet_uids rows /\
  (GoogleSheetsSvc.row_1 rows <> None -> fst first = rows) /\
  GoogleSheetsSvc.createHeaderRow None updateError (fst first) = (fst first, inr tt).
Proof.
  cbv zeta. unfold GoogleSheetsSvc.createHeaderRow.
  destruct rows as [|r rest].
  - cbn. repeat split; try reflexivity; try discriminate. intros H; contradiction.
  - cbn [GoogleSheetsSvc.row_1].
    destruct (forallb (fun c => negb (truthy c)) (firstn 13 r)) eqn:Hempty.
    + cbn -[GoogleSheetsSvc.headers firstn forallb].
      rewrite headers_not_empty. cbn -[GoogleSheetsSvc.headers].
      repeat split; try reflexivity; try discriminate. intros H; contradiction.
    + cbn -[firstn forallb]. rewrite Hempty. cbn -[firstn forallb].
      repeat split; try reflexivity; discriminate.
Qed.

(** ** The scheduler *)

Section CronProperties.

Variable validate : string -> bool.

(** X19.  Starting a stopped scheduler whose interval is valid reports
    true and leaves it running; starting it again reports false and changes
    nothing; stopping it reports true and restores the stopped scheduler;
    stopping a stopped scheduler reports false. *)
Theorem start_stop_cron (s : SyncSvc.Scheduler) :
  SyncSvc.cronJob s = None ->
  validate (SyncSvc.syncInterval s) = true ->
  let started := SyncSvc.startCronJob validate s in
  snd started = inr true /\
  SyncSvc.isCronJobRunning (fst started) = true /\
  SyncSvc.startCronJob validate (fst started) = (fst started, inr false) /\
  SyncSvc.stopCronJob (fst started) = (s, true) /\
  SyncSvc.stopCronJob s = (s, false).
Proof.
  intros Hnone Hvalid. cbv zeta.
  unfold SyncSvc.startCronJob, SyncSvc.stopCronJob, SyncSvc.isCronJobRunning.
  rewrite Hnone, Hvalid. cbn. destruct s as [job interval]. cbn in *. subst.
  repeat split; reflexivity.
Qed.

(** X20.  With an invalid interval [startCronJob] never changes the
    scheduler: it throws "Invalid cron expression" when stopped, and still
    reports false without validating when a job is already running. *)
Theorem invalid_cron_expression_never_starts (s : SyncSvc.Scheduler) :
  validate (SyncSvc.syncInterval s) = false ->
  let r := SyncSvc.startCronJob validate s in
  fst r = s /\
  (SyncSvc.cronJob s = None ->
   snd r = inl (new_Error ("Invalid cron expression: " ++ SyncSvc.syncInterval s))) /\
  (SyncSvc.cronJob s <> None -> snd r = inr false).
Proof.
  intros Hinvalid. cbv zeta. unfold SyncSvc.startCronJob. rewrite Hinvalid.
  destruct (SyncSvc.cronJob s); cbn; repeat split; try reflexivity; congruence.
Qed.

End CronProperties.

Lemma start_stop_cron_witness :
  SyncSvc.stopCronJob
    (fst (SyncSvc.startCronJob (fun s => negb (s =? "")) (SyncSvc.new_Scheduler None)))
  = (SyncSvc.new_Scheduler None, true).
Proof.
  apply (start_stop_cron (fun s => negb (s =? "")) (SyncSvc.new_Scheduler None));
    reflexivity.
Defined.

Lemma invalid_cron_expression_never_starts_witness :
  fst (SyncSvc.startCronJob (fun s => negb (s =? "every day"))
                            (SyncSvc.new_Scheduler (Some "every day")))
  = SyncSvc.new_Scheduler (Some "every day").
Proof.
  apply (invalid_cron_expression_never_starts (fun s => negb (s =? "every day"))
           (SyncSvc.new_Scheduler (Some "every day"))).
  reflexivity.
Defined.

(** ** The read-only query and overlapping requests *)

(** X21.  When the log API answers 200, the read-only query returns the
    normalised records without calling the sheet.  It reports the number of
    valid records as fetched, or the raw number when none is valid, and
    echoes the caller's start and end filters (the whole current and next
    year by default), which are not part of the request it sent. *)
Theorem fetchAttendanceData_result
  (e0 e1 : Env) (es : list Env) (m : Machine) (f : Filters) (resp : AxiosResponse) :
  upstream e1 = inr resp ->
  status resp = 200%Z ->
  let r := call (e0 :: e1 :: es) m (SyncSvc.fetchAttendanceData f) in
  sheet (fst r) = sheet m /\
  calls (fst r)
  = (calls m ++ [year_query (attendanceService (this_ m)) (fullYear e0) "sync_time"])%list /\
  exists res,
    snd r = Ret res /\
    fetch_success res = true /\
    fetch_records res = batch_of resp /\
    fetch_recordsFetched res
    = (if (length (batch_of resp) =? 0)%nat then raw_count resp
       else length (batch_of resp)) /\
    fetch_filters res
    = Some {| startTime :=
                Some (if truthy (startTime f) then default_empty (startTime f)
                      else string_of_Z (fullYear e0) ++ "-01-01T00:00:00");
              endTime :=
                Some (if truthy (endTime f) then default_empty (endTime f)
                      else string_of_Z (fullYear e0 + 1) ++ "-12-31T23:59:59");
              other_filters := other_filters f |}.
Proof.
  intros Hup Hst. cbv zeta.
  unfold batch_of, raw_count, call, SyncSvc.fetchAttendanceData.
  assert (forall v d, or_else v d = if truthy v then default_empty v else d) as Hor.
  { intros [v|] d; reflexivity. }
  rewrite <- !Hor.
  crunch_with ltac:(rewrite ?Hup, ?Hst).
  all: rewrite ?resume_all_settled by reflexivity; quiet; empty_lists; quiet.
  all: repeat split; eexists; repeat split; reflexivity.
Qed.

Lemma fetchAttendanceData_result_witness :
  let r := call [example_env june_2 (example_response []);
                 example_env (june_2 + 800)
                   (inr (response_with [example_record "a"; record_without_person]))]
                (example_machine None false [header_row])
                (SyncSvc.fetchAttendanceData (mkFilters None None [])) in
  sheet (fst r) = [header_row].
Proof.
  cbv zeta.
  apply (fetchAttendanceData_result
           (example_env june_2 (example_response []))
           (example_env (june_2 + 800)
              (inr (response_with [example_record "a"; record_without_person]))) []
           (example_machine None false [header_row]) (mkFilters None None [])
           (response_with [example_record "a"; record_without_person]));
    reflexivity.
Defined.

(** X22.  Of two sync requests (auto or manual) that overlap on an idle
    service, the first passes the guard and sends the one request to the
    log API; the second is answered at once with [success = false]. *)
Theorem overlapping_syncs_send_one_request
  (e0 e1 : Env) (m : Machine) (first second : Entry) :
  isRunning (this_ m) = false ->
  is_sync first = true ->
  is_sync second = true ->
  let st := turns [Invoke first e0; Invoke second e1] (m, []) in
  exists p res,
    snd st = [p; Ret (inl res)] /\ pending p = true /\
    success res = false /\
    calls (fst st)
    = (calls m ++ [year_query (attendanceService (this_ m)) (fullYear e0) "sync_time"])%list.
Proof.
  intros Hidle H1 H2. cbv zeta.
  destruct first; try discriminate; destruct second; try discriminate;
    unfold turns, turn, entry_point, SyncSvc.performSync, SyncSvc.performManualSync;
    cbn; rewrite Hidle; cbn;
    (eexists; eexists; repeat split; reflexivity).
Qed.

Lemma overlapping_syncs_send_one_request_witness :
  let e := example_env june_2 (example_response []) in
  let st := turns [Invoke (Manual june_1 june_2) e; Invoke Auto e]
                  (example_machine None false [header_row], []) in
  exists p res,
    snd st = [p; Ret (inl res)] /\ pending p = true /\
    success res = false /\
    calls (fst st) = [year_query (example_attendance None) 2024 "sync_time"].
Proof.
  cbv zeta.
  apply (overlapping_syncs_send_one_request
           (example_env june_2 (example_response []))
           (example_env june_2 (example_response []))
           (example_machine None false [header_row])
           (Manual june_1 june_2) Auto); reflexivity.
Defined.

